(** * mccn-engine: the session object [MCCN] (src/mccn/client.py) and the
      legacy loader [Mccn] (src/mccn/mccn.py)

    Both classes are thin orchestration over external collaborators (the
    STAC catalog client, the geobox builder, the collection filter, the three
    modality loaders and xarray).  The embedding keeps the collaborators
    opaque: each is a field of a record of externals, returns either a value
    or a raised exception, and every call to one is logged, with its
    arguments, in the list of calls of the computation.  The Python code
    itself (attribute reads and writes on [self], branches, raises, the order
    of the calls) is translated statement by statement into a small
    state-and-exception monad. *)

From Stdlib Require Import ZArith.
From stdpp Require Import base gmap strings list fin_maps.

(** ** Exceptions

    [ValueError], [AttributeError] and [NotImplementedError] are the three
    exception classes the source raises itself.  The remaining constructors
    stand for the exceptions of the external libraries, under the names the
    specification gives them. *)
Inductive Exn : Type :=
| ValueError (msg : string)
| AttributeError (msg : string)
| NotImplementedError (msg : string)
| CatalogUnavailable
| CollectionNotFound
| VariableConflict
| LoadError (msg : string).

(** What a call produces: a raised exception or a returned value. *)
Inductive Res (A : Type) : Type :=
| Raised (e : Exn)
| Returned (v : A).
Arguments Raised {A} e.
Arguments Returned {A} v.

(** ** The monad of Python method bodies

    A computation reads and writes the object state [S] (the attributes of
    [self]) and emits the calls it makes to external collaborators, in
    order.  An exception stops the computation; the attribute writes and the
    calls made before it remain. *)
Module Py.
Section Monad.
Context {Ev S : Type}.

Record Outcome (A : Type) : Type := MkOutcome {
  result : Res A;
  final : S;
  calls : list Ev
}.
Global Arguments MkOutcome {A} _ _ _.
Global Arguments result {A} _.
Global Arguments final {A} _.
Global Arguments calls {A} _.

Definition M (A : Type) : Type := S -> Outcome A.

Definition ret {A} (v : A) : M A :=
  fun s => MkOutcome (Returned v) s [].

Definition raise {A} (e : Exn) : M A :=
  fun s => MkOutcome (Raised e) s [].

Definition bind {A B} (m : M A) (k : A -> M B) : M B :=
  fun s =>
    match m s with
    | MkOutcome (Raised e) s1 cs1 => MkOutcome (Raised e) s1 cs1
    | MkOutcome (Returned v) s1 cs1 =>
        match k v s1 with
        | MkOutcome r s2 cs2 => MkOutcome r s2 (cs1 ++ cs2)
        end
    end.

(** Reading the attributes of [self]. *)
Definition get : M S :=
  fun s => MkOutcome (Returned s) s [].

(** Writing the attributes of [self]. *)
Definition put (s' : S) : M unit :=
  fun _ => MkOutcome (Returned tt) s' [].

(** A call to an external collaborator: the call is logged and its
    outcome, a value or an exception, becomes the outcome of the
    computation. *)
Definition extern {A} (ev : Ev) (r : Res A) : M A :=
  fun s => MkOutcome r s [ev].
End Monad.
Global Arguments Outcome : clear implicits.
Global Arguments M : clear implicits.
End Py.

Import Py.

(** The monad is registered with stdpp's [MRet] and [MBind], so that method
    bodies are written with [x ← m; k] and [m;; k]. *)
#[global] Instance M_ret {Ev S} : MRet (M Ev S) := @ret Ev S.
#[global] Instance M_bind {Ev S} : MBind (M Ev S) :=
  fun A B k m => bind m k.

(** ** The output structure and its merge *)

(** Modelled from the spec: the output structure (xarray's Dataset, absent
    from src/).  The specification gives it named axes with their coordinate
    values and one data variable per loaded band or field; the numeric
    payloads play no role in the orchestration and are kept as integers. *)
Record Dataset : Type := MkDataset {
  coords : gmap string (gset Z);
  data_vars : gmap string (list Z)
}.

Definition empty_dataset : Dataset :=
  {| coords := ∅; data_vars := ∅ |}.

(** Modelled from the spec: one step of the merge (xr.merge, absent from
    src/).  Section 4.5: axes with matching names are unified by an outer
    join of their values, data variables from different sources are kept
    side by side, and no two sources may define the same data-variable
    name: if they do, the merge fails with [VariableConflict]. *)
Definition merge2 (acc d : Dataset) : Res Dataset :=
  if decide (dom (data_vars acc) ∩ dom (data_vars d) = ∅) then
    Returned {| coords := union_with (fun a b => Some (a ∪ b))
                                     (coords acc) (coords d);
                data_vars := data_vars acc ∪ data_vars d |}
  else Raised VariableConflict.

Fixpoint merge_from (acc : Dataset) (items : list Dataset) : Res Dataset :=
  match items with
  | [] => Returned acc
  | d :: items' =>
      match merge2 acc d with
      | Raised e => Raised e
      | Returned acc' => merge_from acc' items'
      end
  end.

(** Modelled from the spec: the merge of the collected structures (xr.merge,
    absent from src/); the merge of no structure is the empty structure. *)
Definition merge (items : list Dataset) : Res Dataset :=
  merge_from empty_dataset items.

(** Two of the collected structures define a data variable of one name. *)
Definition share_variable (items : list Dataset) : Prop :=
  exists (i j : nat) (a b : Dataset) (name : string),
    i < j /\ items !! i = Some a /\ items !! j = Some b /\
    name ∈ dom (data_vars a) /\ name ∈ dom (data_vars b).

(** ** The session object of src/mccn/client.py *)
Module Client.

(** Python's truth value of a sequence: [if bucket:] holds when the bucket
    is not empty. *)
Definition truthy {A} (l : list A) : bool :=
  match l with
  | [] => false
  | _ :: _ => true
  end.

(** [shape: int | tuple[int, int]] *)
Inductive Shape : Type :=
| ShapeInt (n : Z)
| ShapePair (w h : Z).

(** [asset_key: str | Mapping[str, str]] *)
Inductive AssetKey : Type :=
| KeyStr (k : string)
| KeyMap (m : list (string * string)).

(** [vector_fields: Sequence[str] | dict[str, Sequence[str]] | None] *)
Inductive VectorFields : Type :=
| FieldsNone
| FieldsSeq (fs : list string)
| FieldsDict (m : list (string * list string)).

(** Modelled from the spec: the default of [asset_key] (the constant
    ASSET_KEY of mccn.loader.utils, absent from src/); section 6 gives it
    as ["data"]. *)
Definition ASSET_KEY : AssetKey := KeyStr "data".

(** The message of the [ValueError] of [get_geobox] (client.py, line 91). *)
Definition missing_shape_message : string :=
  "If geobox is not defined, shape must be provided to calculate geobox from collection".

Section Session.
(** The types of the external libraries: the opened catalog client, the
    collection descriptor, the catalog item and the geobox. *)
Context {StacClient Collection Item GeoBox : Type}.

(** Modelled from the spec: the collection filter (mccn.filter, absent
    from src/): three ordered sequences of items, one per modality.  The
    source reads its attributes [raster], [vector] and [point]. *)
Record CollectionFilter : Type := MkCollectionFilter {
  raster : list Item;
  vector : list Item;
  point : list Item
}.

(** The external collaborators of the session.  Each field is one callable
    the source imports and calls; its arguments are the arguments of the
    call in the source, in the same order. *)
Record Externals : Type := MkExternals {
  Client_open : string -> Res StacClient;
  Client_from_file : string -> Res StacClient;
  Client_get_collection : StacClient -> string -> Res Collection;
  GeoBoxBuilder_from_collection : Collection -> Shape -> Res GeoBox;
  CollectionFilter_new :
    Collection -> GeoBox -> AssetKey -> Res CollectionFilter;
  stac_load_raster :
    list Item -> GeoBox -> option (list string) ->
    string -> string -> string -> Res Dataset;
  stac_load_vector :
    list Item -> GeoBox -> string -> VectorFields ->
    string -> string -> AssetKey ->
    option (list (string * (string * string))) -> Res Dataset;
  stac_load_point :
    list Item -> GeoBox -> AssetKey -> option (list string) ->
    string -> string -> string -> string -> option string -> Res Dataset;
  xr_merge : list Dataset -> Res Dataset
}.

(** The calls a session makes, with their arguments. *)
Inductive Call : Type :=
| CallClientOpen (endpoint : string)
| CallClientFromFile (endpoint : string)
| CallGetCollection (res : StacClient) (collection_id : string)
| CallGeoBoxBuilder (collection : Collection) (shape : Shape)
| CallCollectionFilter
    (collection : Collection) (geobox : GeoBox) (asset_key : AssetKey)
| CallRaster
    (items : list Item) (geobox : GeoBox) (bands : option (list string))
    (x_col y_col t_col : string)
| CallVector
    (items : list Item) (geobox : GeoBox) (groupby : string)
    (vector_fields : VectorFields) (x_col y_col : string)
    (asset_key : AssetKey)
    (alias_renaming : option (list (string * (string * string))))
| CallPoint
    (items : list Item) (geobox : GeoBox) (asset_key : AssetKey)
    (point_fields : option (list string)) (x_col y_col t_col : string)
    (merge_method : string) (interp_method : option string)
| CallMerge (items : list Dataset).

(** The attributes of a constructed session. *)
Record MCCN : Type := MkMCCN {
  endpoint : string;
  collection_id : string;
  collection : Collection;
  shape : option Shape;
  geobox : GeoBox;
  asset_key : AssetKey;
  collection_filter : CollectionFilter;
  x_col : string;
  y_col : string;
  t_col : string;
  bands : option (list string);
  groupby : string;
  vector_fields : VectorFields;
  alias_renaming : option (list (string * (string * string)));
  point_fields : option (list string);
  merge_method : string;
  interp_method : option string
}.

(** The arguments of the constructor. *)
Record InitArgs : Type := MkInitArgs {
  arg_endpoint : string;
  arg_collection_id : string;
  arg_geobox : option GeoBox;
  arg_shape : option Shape;
  arg_asset_key : AssetKey;
  arg_x_col : string;
  arg_y_col : string;
  arg_t_col : string;
  arg_bands : option (list string);
  arg_groupby : string;
  arg_vector_fields : VectorFields;
  arg_alias_renaming : option (list (string * (string * string)));
  arg_point_fields : option (list string);
  arg_merge_method : string;
  arg_interp_method : option string
}.

(** The constructor called with its defaults (client.py, lines 26-44). *)
Definition default_args (endpoint collection_id : string) : InitArgs :=
  {| arg_endpoint := endpoint;
     arg_collection_id := collection_id;
     arg_geobox := None;
     arg_shape := None;
     arg_asset_key := ASSET_KEY;
     arg_x_col := "x";
     arg_y_col := "y";
     arg_t_col := "time";
     arg_bands := None;
     arg_groupby := "id";
     arg_vector_fields := FieldsNone;
     arg_alias_renaming := None;
     arg_point_fields := None;
     arg_merge_method := "mean";
     arg_interp_method := Some "nearest" |}.

Variable E : Externals.

(** Computations of the constructor (no session exists yet) and of the
    methods of a constructed session. *)
Definition Ctor (A : Type) : Type := M Call unit A.
Definition Method (A : Type) : Type := M Call MCCN A.

(** [MCCN.get_collection] (client.py, lines 70-79); it does not touch
    [self]. *)
Definition get_collection {S} (endpoint collection_id : string)
  : M Call S Collection :=
  res ← (if String.prefix "http" endpoint
         then extern (CallClientOpen endpoint) (Client_open E endpoint)
         else extern (CallClientFromFile endpoint)
                     (Client_from_file E endpoint));
  extern (CallGetCollection res collection_id)
         (Client_get_collection E res collection_id).

(** [MCCN.get_geobox] (client.py, lines 81-93); it does not touch
    [self]. *)
Definition get_geobox {S} (collection : Collection)
    (geobox : option GeoBox) (shape : option Shape) : M Call S GeoBox :=
  match geobox with
  | Some g => mret g
  | None =>
      match shape with
      | None => raise (ValueError missing_shape_message)
      | Some sh =>
          extern (CallGeoBoxBuilder collection sh)
                 (GeoBoxBuilder_from_collection E collection sh)
      end
  end.

(** [MCCN.__init__] (client.py, lines 46-68).  The attributes are assigned
    in the order of the source; the three assignments whose right-hand
    side is a call are the binds. *)
Definition __init__ (a : InitArgs) : Ctor MCCN :=
  let self_endpoint := arg_endpoint a in
  let self_collection_id := arg_collection_id a in
  self_collection ← get_collection (arg_endpoint a) (arg_collection_id a);
  let self_shape := arg_shape a in
  self_geobox ← get_geobox self_collection (arg_geobox a) self_shape;
  let self_asset_key := arg_asset_key a in
  self_collection_filter ←
    extern (CallCollectionFilter self_collection self_geobox self_asset_key)
           (CollectionFilter_new E self_collection self_geobox
                                 self_asset_key);
  mret {| endpoint := self_endpoint;
          collection_id := self_collection_id;
          collection := self_collection;
          shape := self_shape;
          geobox := self_geobox;
          asset_key := self_asset_key;
          collection_filter := self_collection_filter;
          x_col := arg_x_col a;
          y_col := arg_y_col a;
          t_col := arg_t_col a;
          bands := arg_bands a;
          groupby := arg_groupby a;
          vector_fields := arg_vector_fields a;
          alias_renaming := arg_alias_renaming a;
          point_fields := arg_point_fields a;
          merge_method := arg_merge_method a;
          interp_method := arg_interp_method a |}.

(** The three loader calls, logged with their arguments. *)
Definition call_raster (items : list Item) (g : GeoBox)
    (bands : option (list string)) (x y t : string) : Method Dataset :=
  extern (CallRaster items g bands x y t)
         (stac_load_raster E items g bands x y t).

Definition call_vector (items : list Item) (g : GeoBox) (groupby : string)
    (fields : VectorFields) (x y : string) (key : AssetKey)
    (alias : option (list (string * (string * string)))) : Method Dataset :=
  extern (CallVector items g groupby fields x y key alias)
         (stac_load_vector E items g groupby fields x y key alias).

Definition call_point (items : list Item) (g : GeoBox) (key : AssetKey)
    (fields : option (list string)) (x y t : string)
    (merge_method : string) (interp_method : option string)
  : Method Dataset :=
  extern (CallPoint items g key fields x y t merge_method interp_method)
         (stac_load_point E items g key fields x y t
                          merge_method interp_method).

(** [MCCN.load_raster] (client.py, lines 95-103). *)
Definition load_raster : Method Dataset :=
  self ← get;
  call_raster (raster (collection_filter self)) (geobox self) (bands self)
              (x_col self) (y_col self) (t_col self).

(** [MCCN.load_vector] (client.py, lines 105-115). *)
Definition load_vector : Method Dataset :=
  self ← get;
  call_vector (vector (collection_filter self)) (geobox self)
              (groupby self) (vector_fields self)
              (x_col self) (y_col self) (asset_key self)
              (alias_renaming self).

(** [MCCN.load_point] (client.py, lines 117-128). *)
Definition load_point : Method Dataset :=
  self ← get;
  call_point (point (collection_filter self)) (geobox self)
             (asset_key self) (point_fields self)
             (x_col self) (y_col self) (t_col self)
             (merge_method self) (interp_method self).

(** [MCCN.load] (client.py, lines 130-170).  [items] is the local list;
    [items.append(v)] is [items ++ [v]]. *)
Definition load : Method Dataset :=
  self ← get;
  let items : list Dataset := [] in
  items ←
    (if truthy (raster (collection_filter self)) then
       v ← call_raster (raster (collection_filter self)) (geobox self)
                       (bands self)
                       (x_col self) (y_col self) (t_col self);
       mret (items ++ [v])
     else mret items);
  items ←
    (if truthy (vector (collection_filter self)) then
       v ← call_vector (vector (collection_filter self)) (geobox self)
                       (groupby self) (vector_fields self)
                       (x_col self) (y_col self) (asset_key self)
                       (alias_renaming self);
       mret (items ++ [v])
     else mret items);
  items ←
    (if truthy (point (collection_filter self)) then
       v ← call_point (point (collection_filter self)) (geobox self)
                      (asset_key self) (point_fields self)
                      (x_col self) (y_col self) (t_col self)
                      (merge_method self) (interp_method self);
       mret (items ++ [v])
     else mret items);
  extern (CallMerge items) (xr_merge E items).
End Session.

(** Modelled from the spec: the catalog service (pystac_client, absent from
    src/).  Section 4.1: an endpoint is a reachable catalog root or it is
    not, and a collection identifier exists within a root or it does not;
    opening an endpoint that cannot be opened signals [CatalogUnavailable],
    asking a root for an absent identifier signals [CollectionNotFound].
    The world maps each endpoint that can be opened to its root, and a root
    maps each identifier it holds to the collection descriptor. *)
Definition catalog_open {Collection} (world : gmap string (gmap string Collection))
    (endpoint : string) : Res (gmap string Collection) :=
  match world !! endpoint with
  | Some root => Returned root
  | None => Raised CatalogUnavailable
  end.

Definition catalog_get_collection {Collection}
    (root : gmap string Collection) (collection_id : string)
  : Res Collection :=
  match root !! collection_id with
  | Some c => Returned c
  | None => Raised CollectionNotFound
  end.

(** The externals [E] resolve catalogs as the catalog service of the world
    does. *)
Definition serves {Collection Item GeoBox}
    (E : @Externals (gmap string Collection) Collection Item GeoBox)
    (world : gmap string (gmap string Collection)) : Prop :=
  (forall endpoint, Client_open E endpoint = catalog_open world endpoint) /\
  (forall endpoint, Client_from_file E endpoint = catalog_open world endpoint) /\
  (forall root collection_id,
     Client_get_collection E root collection_id =
     catalog_get_collection root collection_id).

(** The public operations of a session. *)
Inductive Op : Type := OpLoad | OpLoadRaster | OpLoadVector | OpLoadPoint.

Definition run_op {StacClient Collection Item GeoBox}
    (E : @Externals StacClient Collection Item GeoBox) (op : Op)
  : Method Dataset :=
  match op with
  | OpLoad => load E
  | OpLoadRaster => load_raster E
  | OpLoadVector => load_vector E
  | OpLoadPoint => load_point E
  end.

(** A sequence of calls of public operations on one session; the caller
    goes on to the next call whether a call returned or raised.  The result
    is the session after the last call. *)
Fixpoint run_ops {StacClient Collection Item GeoBox}
    (E : @Externals StacClient Collection Item GeoBox) (ops : list Op)
    (self : @MCCN Collection Item GeoBox) : @MCCN Collection Item GeoBox :=
  match ops with
  | [] => self
  | op :: ops' => run_ops E ops' (final (run_op E op self))
  end.
End Client.

(** ** Observations on the calls of a session *)
Module Observe.
Import Client.

Inductive Modality : Type := Raster | Vector | Point.

#[global] Instance Modality_eq_dec : EqDecision Modality.
Proof. solve_decision. Defined.

Section Observations.
Context {StacClient Collection Item GeoBox : Type}.
Abbreviation Call := (@Call StacClient Collection Item GeoBox).
Abbreviation Externals := (@Externals StacClient Collection Item GeoBox).
Abbreviation MCCN := (@MCCN Collection Item GeoBox).

(** The loader a call goes to, if it is a loader call. *)
Definition modality_of (c : Call) : option Modality :=
  match c with
  | CallRaster _ _ _ _ _ _ => Some Raster
  | CallVector _ _ _ _ _ _ _ _ => Some Vector
  | CallPoint _ _ _ _ _ _ _ _ _ => Some Point
  | _ => None
  end.

(** The loaders invoked by a list of calls, in the order of invocation. *)
Definition invoked (cs : list Call) : list Modality :=
  omap modality_of cs.

(** What the loader answers to a loader call. *)
Definition answer (E : Externals) (c : Call) : option (Res Dataset) :=
  match c with
  | CallRaster items g bands x y t =>
      Some (stac_load_raster E items g bands x y t)
  | CallVector items g groupby fields x y key alias =>
      Some (stac_load_vector E items g groupby fields x y key alias)
  | CallPoint items g key fields x y t mm im =>
      Some (stac_load_point E items g key fields x y t mm im)
  | _ => None
  end.

(** The loader call [c] fails with [e]. *)
Definition fails_with (E : Externals) (c : Call) (e : Exn) : Prop :=
  answer E c = Some (Raised e).

Definition returns (E : Externals) (c : Call) : bool :=
  match answer E c with
  | Some (Raised _) => false
  | _ => true
  end.

(** Every loader invoked by the calls [cs] returns. *)
Definition all_return (E : Externals) (cs : list Call) : bool :=
  forallb (returns E) cs.

(** The bucket of a modality. *)
Definition bucket (f : @CollectionFilter Item) (m : Modality) : list Item :=
  match m with
  | Raster => raster f
  | Vector => vector f
  | Point => point f
  end.

(** The modalities whose bucket is not empty, in the order raster,
    vector, point. *)
Definition nonempty_buckets (self : MCCN) : list Modality :=
  List.filter
    (fun m => negb (Nat.eqb (length (bucket (collection_filter self) m)) 0))
    [Raster; Vector; Point].

(** The merge is called. *)
Definition merge_called (cs : list Call) : bool :=
  existsb (fun c => match c with CallMerge _ => true | _ => false end) cs.

(** The call goes to the catalog client. *)
Definition catalog_call (c : Call) : bool :=
  match c with
  | CallClientOpen _ | CallClientFromFile _ | CallGetCollection _ _ => true
  | _ => false
  end.

(** The standalone public operation of a modality. *)
Definition standalone (E : Externals) (m : Modality) : Method Dataset :=
  match m with
  | Raster => load_raster E
  | Vector => load_vector E
  | Point => load_point E
  end.
End Observations.
End Observe.


(** ** The legacy loader of src/mccn/mccn.py *)
Module Legacy.

(** The interface of the xarray objects the legacy loader handles: the
    datasets, the data arrays and their scalar coordinate values.  Each
    operation is the attribute or method of the same name in the source and
    may raise. *)
Class Xarray (Dataset DataArray Scalar : Type) : Type := MkXarray {
  (** [xx.xindexes], as the names it holds *)
  xindexes : Dataset -> list string;
  (** [xx.<name>] *)
  ds_getattr : Dataset -> string -> Res DataArray;
  (** [a.min().item()] and [a.max().item()] *)
  da_min : DataArray -> Res Scalar;
  da_max : DataArray -> Res Scalar;
  (** [list(a.values)] *)
  da_values : DataArray -> list Scalar;
  (** [yy.rename(names)] *)
  da_rename : DataArray -> list (string * string) -> Res DataArray;
  (** [yy.interp(longitude=.., latitude=.., method=.., kwargs=..)] *)
  da_interp :
    DataArray -> list Scalar -> list Scalar -> string ->
    list (string * string) -> Res DataArray;
  (** [yy[key] = value] *)
  da_setitem : DataArray -> string -> DataArray -> Res DataArray;
  (** [yy.expand_dims(dim={name: value})] *)
  da_expand_dims : DataArray -> string -> DataArray -> Res DataArray;
  (** [yy.squeeze(dim=.., drop=..)] *)
  da_squeeze : DataArray -> string -> bool -> Res DataArray;
  (** [yy.to_dataset(name=..)] *)
  da_to_dataset : DataArray -> string -> Res Dataset
}.

(** The message of the [AttributeError] of [_load_stac] (mccn.py, lines
    61-62). *)
Definition spatial_axes_message : string :=
  "Spatial axes must contain either x and y or longitude and latitude.".

(** The message of the [NotImplementedError] of [load] (mccn.py, lines
    114-115); the two literals are joined without a space. *)
Definition not_implemented_message (source_name : string) : string :=
  "Datacube stacking for " +:+ source_name +:+ " has not beenimplemented.".

Section Loader.
Context {StacClient Search ItemIter GeoBox Importer Response : Type}.
Context {Dataset DataArray Scalar : Type} `{!Xarray Dataset DataArray Scalar}.

(** The imported callables of the legacy loader. *)
Record Externals : Type := MkExternals {
  Client_open : string -> Res StacClient;
  client_search : StacClient -> list string -> Res Search;
  search_items : Search -> Res ItemIter;
  stac_load :
    ItemIter -> option (list string) -> string -> option (list (string * Z)) ->
    option string -> option GeoBox -> Res Dataset;
  stac_load_vector : ItemIter -> option GeoBox -> Res Dataset;
  get_wcs_importer : string -> Res Importer;
  get_data : Importer -> option (list Scalar) -> string -> Res Response;
  open_rasterio : Response -> Res DataArray;
  combine_by_coords : list Dataset -> Res Dataset
}.

(** The calls the legacy loader makes, with their arguments. *)
Inductive Call : Type :=
| CallClientOpen (stac_url : string)
| CallSearch (client : StacClient) (collections : list string)
| CallItems (query : Search)
| CallStacLoad
    (items : ItemIter) (bands : option (list string)) (groupby : string)
    (chunks : option (list (string * Z))) (crs : option string)
    (geobox : option GeoBox)
| CallStacLoadVector (items : ItemIter) (gbox : option GeoBox)
| CallGetWcsImporter (source : string)
| CallGetData
    (importer : Importer) (bbox : option (list Scalar)) (layername : string)
| CallOpenRasterio (response : Response)
| CallCombineByCoords (datasets : list Dataset).

(** The attributes of a legacy loader object. *)
Record Mccn : Type := MkMccn {
  stac_client : StacClient;
  lat_count : option Z;
  lon_count : option Z;
  bbox : option (list Scalar)
}.

Variable E : Externals.

Definition Method (A : Type) : Type := M Call Mccn A.

(** An operation on an xarray object: no call is logged, its exception, if
    any, is raised. *)
Definition lift {S A} (r : Res A) : M Call S A :=
  fun s => MkOutcome r s [].

(** [Mccn.__init__] (mccn.py, lines 18-25); the printed line is left out. *)
Definition __init__ (stac_url : string) : M Call unit Mccn :=
  self_stac_client ← extern (CallClientOpen stac_url) (Client_open E stac_url);
  mret {| stac_client := self_stac_client;
          lat_count := None;
          lon_count := None;
          bbox := None |}.

(** [Mccn._query] (mccn.py, lines 27-30). *)
Definition _query (col_id : string) : Method ItemIter :=
  self ← get;
  query ← extern (CallSearch (stac_client self) [col_id])
                 (client_search E (stac_client self) [col_id]);
  extern (CallItems query) (search_items E query).

(** [Mccn._load_stac] (mccn.py, lines 32-64); the printed line, the worker
    pool and the progress bar are left out. *)
Definition _load_stac (col_id : string) (bands : option (list string))
    (groupby : string) (crs : option string) (geobox : option GeoBox)
    (lazy : bool) : Method Dataset :=
  let chunks :=
    if lazy then Some [("x", 2048%Z); ("y", 2048%Z)] else None in
  items ← _query col_id;
  xx ← extern (CallStacLoad items bands groupby chunks crs geobox)
              (stac_load E items bands groupby chunks crs geobox);
  '(min_lon, max_lon, min_lat, max_lat) ←
    (if bool_decide ("x" ∈ xindexes xx) && bool_decide ("y" ∈ xindexes xx)
     then
       xx_x ← lift (ds_getattr xx "x");
       min_lon ← lift (da_min xx_x);
       xx_x ← lift (ds_getattr xx "x");
       max_lon ← lift (da_max xx_x);
       xx_y ← lift (ds_getattr xx "y");
       min_lat ← lift (da_min xx_y);
       xx_y ← lift (ds_getattr xx "y");
       max_lat ← lift (da_max xx_y);
       mret (min_lon, max_lon, min_lat, max_lat)
     else if bool_decide ("longitude" ∈ xindexes xx)
             && bool_decide ("latitude" ∈ xindexes xx)
     then
       xx_longitude ← lift (ds_getattr xx "longitude");
       min_lon ← lift (da_min xx_longitude);
       xx_longitude ← lift (ds_getattr xx "longitude");
       max_lon ← lift (da_max xx_longitude);
       xx_latitude ← lift (ds_getattr xx "latitude");
       min_lat ← lift (da_min xx_latitude);
       xx_latitude ← lift (ds_getattr xx "latitude");
       max_lat ← lift (da_max xx_latitude);
       mret (min_lon, max_lon, min_lat, max_lat)
     else
       raise (AttributeError spatial_axes_message));
  self ← get;
  put {| stac_client := stac_client self;
         lat_count := lat_count self;
         lon_count := lon_count self;
         bbox := Some [min_lon; min_lat; max_lon; max_lat] |};;
  mret xx.

(** [Mccn.load_public] (mccn.py, lines 66-70), a static method; reading the
    response into a byte buffer is part of [open_rasterio]. *)
Definition load_public {S} (source : string) (bbox : option (list Scalar))
    (layername : string) : M Call S DataArray :=
  importer ← extern (CallGetWcsImporter source) (get_wcs_importer E source);
  response ← extern (CallGetData importer bbox layername)
                    (get_data E importer bbox layername);
  extern (CallOpenRasterio response) (open_rasterio E response).

(** One round of the loop over [source.items()] (mccn.py, lines 113-132):
    the entry [(source_name, layer_name)] is stacked on [xx]. *)
Definition stack_source (xx : Dataset) (entry : string * string)
  : Method Dataset :=
  let '(source_name, layer_name) := entry in
  if bool_decide (source_name ≠ "dem") then
    raise (NotImplementedError (not_implemented_message source_name))
  else
    self ← get;
    yy ← load_public source_name (bbox self) layer_name;
    yy ← lift (da_rename yy [("x", "longitude"); ("y", "latitude")]);
    xx_longitude ← lift (ds_getattr xx "longitude");
    xx_latitude ← lift (ds_getattr xx "latitude");
    yy ← lift (da_interp yy (da_values xx_longitude) (da_values xx_latitude)
                         "linear" [("fill_value", "extrapolate")]);
    xx_spatial_ref ← lift (ds_getattr xx "spatial_ref");
    yy ← lift (da_setitem yy "spatial_ref" xx_spatial_ref);
    xx_time ← lift (ds_getattr xx "time");
    yy ← lift (da_expand_dims yy "time" xx_time);
    yy ← lift (da_squeeze yy "band" true);
    yy ← lift (da_to_dataset yy "elevation");
    extern (CallCombineByCoords [xx; yy]) (combine_by_coords E [xx; yy]).

(** The loop [for source_name, layer_name in source.items()] (mccn.py,
    line 112), over the entries of the mapping in insertion order. *)
Fixpoint stack_sources (xx : Dataset) (entries : list (string * string))
  : Method Dataset :=
  match entries with
  | [] => mret xx
  | entry :: entries' =>
      xx ← stack_source xx entry;
      stack_sources xx entries'
  end.

(** [Mccn.load] (mccn.py, lines 85-134).  [mask] is the truth value of the
    argument, which is all the source uses of it. *)
Definition load (col_id : string) (bands : option (list string))
    (groupby : string) (crs : option string) (geobox : option GeoBox)
    (lazy : bool) (source : option (list (string * string))) (mask : bool)
  : Method Dataset :=
  xx ← _load_stac col_id bands groupby crs geobox lazy;
  (if mask then
     items ← _query col_id;
     vector_array ← extern (CallStacLoadVector items geobox)
                           (stac_load_vector E items geobox);
     mret tt
   else mret tt);;
  match source with
  | Some entries => stack_sources xx entries
  | None => mret xx
  end.
End Loader.
End Legacy.

(** ** Concrete sessions

    A small world on which the definitions are evaluated: one catalog root
    with one collection, items and geoboxes named by numbers, and loaders
    that answer a fixed outcome each. *)
Module Examples.
Import Client Observe.

(** A structure with the axis [x] and one data variable. *)
Definition cube (name : string) : Dataset :=
  {| coords := {[ "x" := {[ 0%Z ]} ]};
     data_vars := {[ name := [1%Z] ]} |}.

Definition world : gmap string (gmap string nat) :=
  {[ "http://stac.example" := {[ "farm" := 7 ]} ]}.

(** Externals whose raster, vector and point loaders answer [r], [v] and
    [p]; the catalog is the catalog service of [world] and the merge is the
    merge of the specification. *)
Definition env (r v p : Res Dataset)
  : @Externals (gmap string nat) nat nat nat :=
  {| Client_open := catalog_open world;
     Client_from_file := catalog_open world;
     Client_get_collection := catalog_get_collection;
     GeoBoxBuilder_from_collection := fun _ _ => Returned 0;
     CollectionFilter_new := fun _ _ _ => Returned (MkCollectionFilter [1] [2] []);
     stac_load_raster := fun _ _ _ _ _ _ => r;
     stac_load_vector := fun _ _ _ _ _ _ _ _ => v;
     stac_load_point := fun _ _ _ _ _ _ _ _ _ => p;
     xr_merge := merge |}.

(** A constructed session with the buckets [f] and the default
    configuration. *)
Definition session (f : @CollectionFilter nat) : @MCCN nat nat nat :=
  {| endpoint := "http://stac.example";
     collection_id := "farm";
     collection := 7;
     shape := Some (ShapeInt 256);
     geobox := 0;
     asset_key := ASSET_KEY;
     collection_filter := f;
     x_col := "x";
     y_col := "y";
     t_col := "time";
     bands := None;
     groupby := "id";
     vector_fields := FieldsNone;
     alias_renaming := None;
     point_fields := None;
     merge_method := "mean";
     interp_method := Some "nearest" |}.

(** The loader calls of such a session. *)
Definition raster_call : @Call (gmap string nat) nat nat nat :=
  CallRaster [1] 0 None "x" "y" "time".
Definition vector_call : @Call (gmap string nat) nat nat nat :=
  CallVector [2] 0 "id" FieldsNone "x" "y" ASSET_KEY None.
Definition point_call : @Call (gmap string nat) nat nat nat :=
  CallPoint [3] 0 ASSET_KEY None "x" "y" "time" "mean" (Some "nearest").
End Examples.

(** A small world for the legacy loader: a dataset is the list of the names
    of its indexes, a data array is the name of an axis, every axis ranges
    from 0 to 1, and the catalog search yields the items [tt]. *)
Module LegacyExamples.
Import Legacy.

#[global] Instance names_xarray : Xarray (list string) string Z :=
  {| xindexes := fun xx => xx;
     ds_getattr := fun xx name =>
       if bool_decide (name ∈ xx) then Returned name
       else Raised (AttributeError name);
     da_min := fun _ => Returned 0%Z;
     da_max := fun _ => Returned 1%Z;
     da_values := fun _ => [0%Z; 1%Z];
     da_rename := fun yy _ => Returned yy;
     da_interp := fun yy _ _ _ _ => Returned yy;
     da_setitem := fun yy _ _ => Returned yy;
     da_expand_dims := fun yy _ _ => Returned yy;
     da_squeeze := fun yy _ _ => Returned yy;
     da_to_dataset := fun _ name => Returned [name] |}.

(** Externals whose [stac_load] answers the dataset [xx]. *)
Definition env (xx : list string)
  : @Externals unit unit unit unit unit unit (list string) string Z :=
  {| Client_open := fun _ => Returned tt;
     client_search := fun _ _ => Returned tt;
     search_items := fun _ => Returned tt;
     stac_load := fun _ _ _ _ _ _ => Returned xx;
     stac_load_vector := fun _ _ => Returned [];
     get_wcs_importer := fun _ => Returned tt;
     get_data := fun _ _ _ => Returned tt;
     open_rasterio := fun _ => Returned "band";
     combine_by_coords := fun dss => Returned (concat dss) |}.

(** A loader object as the constructor leaves it. *)
Definition fresh : @Mccn unit Z :=
  {| stac_client := tt; lat_count := None; lon_count := None; bbox := None |}.
End LegacyExamples.

(** * Properties of the session object *)

Import Client Observe.

(** The answers of the external collaborators are opaque: a proof goes by
    cases on them. *)
Ltac client_answer r :=
  lazymatch r with
  | Client_open _ _ => idtac
  | Client_from_file _ _ => idtac
  | Client_get_collection _ _ _ => idtac
  | GeoBoxBuilder_from_collection _ _ _ => idtac
  | CollectionFilter_new _ _ _ _ => idtac
  | stac_load_raster _ _ _ _ _ _ _ => idtac
  | stac_load_vector _ _ _ _ _ _ _ _ _ => idtac
  | stac_load_point _ _ _ _ _ _ _ _ _ _ => idtac
  | xr_merge _ _ => idtac
  end.

(** Running a method body: the monad is unfolded, and the outcome is
    computed by cases on the answers of the collaborators it calls; an
    answer already settled is reused. *)
Ltac run_method :=
  unfold mbind, M_bind, mret, M_ret, bind, ret, get, put, extern, raise,
    call_raster, call_vector, call_point in *;
  repeat (cbn;
    match goal with
    | H : ?r = _ |- context [?r] => client_answer r; rewrite H
    | |- context [match ?r with Raised _ => _ | Returned _ => _ end] =>
        client_answer r; destruct r eqn:?
    end);
  cbn.

(** ** The monad *)

Lemma bind_outcome {Ev S A B} (m : M Ev S A) (k : A -> M Ev S B) (s : S) :
  bind m k s =
  match result (m s) with
  | Raised e => MkOutcome (Raised e) (final (m s)) (calls (m s))
  | Returned v =>
      MkOutcome (result (k v (final (m s)))) (final (k v (final (m s))))
                (calls (m s) ++ calls (k v (final (m s))))
  end.
Proof.
  unfold bind. destruct (m s) as [[e|v] s1 cs1]; cbn; [reflexivity|].
  by destruct (k v s1).
Qed.

Lemma bind_assoc {Ev S A B C} (m : M Ev S A) (f : A -> M Ev S B)
    (g : B -> M Ev S C) (s : S) :
  bind (bind m f) g s = bind m (fun x => bind (f x) g) s.
Proof.
  unfold bind. destruct (m s) as [[e|v] s1 cs1]; [reflexivity|].
  destruct (f v s1) as [[e|w] s2 cs2]; [reflexivity|].
  destruct (g w s2) as [r s3 cs3]. by rewrite app_assoc.
Qed.

Lemma bind_ext {Ev S A B} (m : M Ev S A) (f g : A -> M Ev S B) (s : S) :
  (forall x s', f x s' = g x s') -> bind m f s = bind m g s.
Proof.
  intros Hfg. unfold bind. destruct (m s) as [[e|v] s1 cs1]; [reflexivity|].
  by rewrite Hfg.
Qed.

Lemma bind_ret_l {Ev S A B} (v : A) (k : A -> M Ev S B) (s : S) :
  bind (ret v) k s = k v s.
Proof. unfold bind, ret. by destruct (k v s). Qed.

(** ** The merge of the specification *)

Lemma merge2_raises (acc d : Dataset) (e : Exn) :
  merge2 acc d = Raised e -> e = VariableConflict.
Proof. unfold merge2. case_decide; congruence. Qed.

Lemma merge2_returns (acc d r : Dataset) :
  merge2 acc d = Returned r ->
  dom (data_vars acc) ∩ dom (data_vars d) = ∅ /\
  data_vars r = data_vars acc ∪ data_vars d.
Proof.
  unfold merge2. case_decide; [|discriminate].
  intros [= <-]. split; [assumption | reflexivity].
Qed.

(** A name the accumulated structure already defines conflicts with any
    later structure that defines it too. *)
Lemma merge_from_conflict_acc (items : list Dataset) :
  forall (acc b : Dataset) (j : nat) (name : string),
    name ∈ dom (data_vars acc) ->
    items !! j = Some b ->
    name ∈ dom (data_vars b) ->
    merge_from acc items = Raised VariableConflict.
Proof.
  induction items as [|d items IH]; intros acc b j name Hacc Hj Hb.
  - by rewrite lookup_nil in Hj.
  - cbn. destruct (merge2 acc d) as [e|acc'] eqn:Hm.
    + by rewrite (merge2_raises _ _ _ Hm).
    + apply merge2_returns in Hm as [Hdisj Hvars].
      destruct j as [|j]; cbn in Hj.
      * injection Hj as ->. set_solver.
      * apply (IH acc' b j name); [|done..].
        rewrite Hvars, dom_union_L. set_solver.
Qed.

Lemma merge_from_conflict (items : list Dataset) :
  share_variable items ->
  forall acc, merge_from acc items = Raised VariableConflict.
Proof.
  induction items as [|d items IH];
    intros (i & j & a & b & name & Hij & Hi & Hj & Ha & Hb) acc.
  - by rewrite lookup_nil in Hi.
  - cbn. destruct (merge2 acc d) as [e|acc'] eqn:Hm.
    + by rewrite (merge2_raises _ _ _ Hm).
    + apply merge2_returns in Hm as [Hdisj Hvars].
      destruct j as [|j]; [lia|]. cbn in Hj.
      destruct i as [|i]; cbn in Hi.
      * injection Hi as ->.
        apply (merge_from_conflict_acc items acc' b j name); [|done..].
        rewrite Hvars, dom_union_L. set_solver.
      * apply IH. exists i, j, a, b, name. repeat split; [lia|done..].
Qed.

(** The merge of the specification fails with [VariableConflict] as soon as
    two of the structures define a data variable of one name. *)
Lemma merge_conflict (items : list Dataset) :
  share_variable items -> merge items = Raised VariableConflict.
Proof. intros H. by apply merge_from_conflict. Qed.

(** The merge on small inputs: two structures with different variables are
    kept side by side, two structures with one variable name conflict, and
    no structure at all merges into the empty structure. *)
Example merge_side_by_side :
  exists d,
    merge [Examples.cube "ndvi"; Examples.cube "soil"] = Returned d /\
    dom (data_vars d) = {[ "ndvi"; "soil" ]} /\
    coords d = {[ "x" := {[ 0%Z ]} ]}.
Proof. eexists. split; [reflexivity|]. split; by vm_compute. Qed.

Example merge_same_name :
  merge [Examples.cube "ndvi"; Examples.cube "soil"; Examples.cube "ndvi"]
  = Raised VariableConflict.
Proof. reflexivity. Qed.

Example merge_nothing : merge [] = Returned empty_dataset.
Proof. reflexivity. Qed.

Section ClientFacts.
Context {StacClient Collection Item GeoBox : Type}.
Abbreviation Ext := (@Externals StacClient Collection Item GeoBox).
Abbreviation Session := (@MCCN Collection Item GeoBox).
Variable E : Ext.

(** Case analysis on the three buckets of a session. *)
Ltac by_buckets self :=
  let r := fresh "r" in
  let v := fresh "v" in
  let p := fresh "p" in
  destruct self as [? ? ? ? ? ? [r v p] ? ? ? ? ? ? ? ? ? ?];
  destruct r, v, p.

(** Membership in an explicit list of calls, by cases. *)
Ltac by_membership :=
  repeat match goal with
    | H : _ ∈ _ :: _ |- _ => apply elem_of_cons in H as [H | H]
    | H : _ ∈ [] |- _ => by apply elem_of_nil in H
    end.

(** C1 (as amended).  The loaders [load] invokes are always an initial
    segment of the sequence raster, vector, point restricted to the
    non-empty buckets: the order is fixed, no loader is invoked twice and
    none is invoked for an empty bucket.  Nothing is called after a loader
    that raised: a loader call that fails is the last call of [load], so
    that no later loader is invoked and the merge is not called.  When
    every invoked loader returns, the loaders invoked are exactly those of
    the non-empty buckets, once each, and the list handed to the merge has
    one entry per non-empty bucket and no other entry. *)
Theorem load_invokes_loaders_in_order (self : Session) :
  invoked (calls (load E self)) `prefix_of` nonempty_buckets self /\
  NoDup (invoked (calls (load E self))) /\
  (forall (c : Call) (e : Exn),
     c ∈ calls (load E self) ->
     fails_with E c e ->
     last (calls (load E self)) = Some c /\
     merge_called (calls (load E self)) = false) /\
  (all_return E (calls (load E self)) = true ->
   invoked (calls (load E self)) = nonempty_buckets self /\
   exists items,
     last (calls (load E self)) = Some (CallMerge items) /\
     length items = length (nonempty_buckets self)).
Proof.
  by_buckets self;
    unfold load, nonempty_buckets, all_return, returns, fails_with;
    run_method.
  all: split; [by eexists|].
  all: split; [by apply (bool_decide_unpack _)|].
  all: split;
    [intros failing err Hc Hfail; by_membership; subst failing;
     cbn in Hfail; try discriminate Hfail; try congruence; by split|].
  all: intros Hret; try discriminate Hret.
  all: split; [done|].
  all: by eexists.
Qed.

(** C6.  If a loader call made by [load] fails with [e], then [load] raises
    [e] itself and returns no structure; the failing call is the last call
    of [load], so that the loader is not tried again, no later loader is
    invoked and the merge is not called; no loader is invoked twice, and
    the session is left as it was. *)
Theorem load_propagates_loader_failure (self : Session) (c : Call) (e : Exn) :
  c ∈ calls (load E self) ->
  fails_with E c e ->
  result (load E self) = Raised e /\
  last (calls (load E self)) = Some c /\
  merge_called (calls (load E self)) = false /\
  NoDup (invoked (calls (load E self))) /\
  final (load E self) = self.
Proof.
  by_buckets self; unfold load, fails_with; run_method.
  all: intros Hc Hfail; by_membership; subst c; cbn in Hfail.
  all: try discriminate Hfail; try congruence.
  all: repeat split; try congruence.
  all: by apply (bool_decide_unpack _).
Qed.
(** C9.  Every loader call made by [load] is the one call the standalone
    operation of that modality makes on the same session, with the same
    bucket, geobox and configuration arguments, and the loader's answer to
    it is the result of the standalone operation; the list handed to the
    merge holds, for the non-empty buckets in order, the structures the
    standalone operations return. *)
Theorem load_collects_standalone_results (self : Session) :
  (forall (c : Call) (m : Modality),
     c ∈ calls (load E self) ->
     modality_of c = Some m ->
     calls (standalone E m self) = [c] /\
     answer E c = Some (result (standalone E m self))) /\
  (forall items : list Dataset,
     CallMerge items ∈ calls (load E self) ->
     Forall2 (fun m d => result (standalone E m self) = Returned d)
             (nonempty_buckets self) items).
Proof.
  split.
  - intros c m Hc Hm. revert Hc.
    by_buckets self; unfold load; run_method.
    all: intros Hc; by_membership; subst c; try discriminate Hm.
    all: injection Hm as <-; by split.
  - intros items. 
    by_buckets self;
      unfold load, nonempty_buckets, standalone, load_raster, load_vector,
        load_point;
      run_method.
    all: intros Hc; by_membership; try discriminate Hc.
    all: injection Hc as ->.
    all: repeat (constructor; [cbn; congruence|]); constructor.
Qed.

(** C5.  With the merge of the specification, a session whose three buckets
    are empty gets the empty structure from [load], which raises nothing:
    no loader is invoked, the merge is called on the empty list, and the
    session is left as it was. *)
Theorem load_empty_buckets (self : Session) :
  (forall items, xr_merge E items = merge items) ->
  raster (collection_filter self) = [] ->
  vector (collection_filter self) = [] ->
  point (collection_filter self) = [] ->
  result (load E self) = Returned empty_dataset /\
  calls (load E self) = [CallMerge []] /\
  final (load E self) = self.
Proof.
  intros Hmerge Hr Hv Hp.
  destruct self as [? ? ? ? ? ? [r v p] ? ? ? ? ? ? ? ? ? ?].
  cbn in Hr, Hv, Hp. subst r v p. unfold load.
  unfold mbind, M_bind, mret, M_ret, bind, ret, get, extern; cbn.
  by rewrite Hmerge.
Qed.

(** C2 (as amended).  With the merge of the specification: when every
    loader [load] invokes returns and two of them return a data variable of
    the same name, [load] fails with [VariableConflict] and returns no
    structure. *)
Theorem load_rejects_shared_variable
    (self : Session) (c1 c2 : Call) (d1 d2 : Dataset) (name : string) :
  (forall items, xr_merge E items = merge items) ->
  all_return E (calls (load E self)) = true ->
  c1 ∈ calls (load E self) ->
  c2 ∈ calls (load E self) ->
  modality_of c1 <> modality_of c2 ->
  answer E c1 = Some (Returned d1) ->
  answer E c2 = Some (Returned d2) ->
  name ∈ dom (data_vars d1) ->
  name ∈ dom (data_vars d2) ->
  result (load E self) = Raised VariableConflict.
Proof.
  intros Hmerge Hret H1 H2 Hne Ha1 Ha2 Hn1 Hn2.
  revert Hret H1 H2.
  by_buckets self; unfold load, all_return, returns; run_method.
  all: intros Hret H1 H2; try discriminate Hret.
  all: by_membership; subst c1 c2; cbn in Ha1, Ha2; try discriminate;
    try (by destruct Hne).
  all: rewrite Hmerge; apply merge_conflict.
  all: first
    [ exists 0, 1, d1, d2, name; repeat split; auto; cbn; congruence
    | exists 0, 1, d2, d1, name; repeat split; auto; cbn; congruence
    | exists 0, 2, d1, d2, name; repeat split; auto; cbn; congruence
    | exists 0, 2, d2, d1, name; repeat split; auto; cbn; congruence
    | exists 1, 2, d1, d2, name; repeat split; auto; cbn; congruence
    | exists 1, 2, d2, d1, name; repeat split; auto; cbn; congruence ].
Qed.
(** C3 (as amended).  A construction given neither a geobox nor a shape
    always fails.  The catalog is called first: the calls made are exactly
    those of the catalog resolver, beginning with the opening of the
    endpoint; the geobox builder, the collection filter and the loaders are
    never called.  If the resolver returns the collection, the failure is
    the [ValueError] of [get_geobox] (the specification's
    ConfigurationError); if the resolver fails, the failure is the
    resolver's. *)
Theorem init_without_geobox_and_shape (a : InitArgs) :
  arg_geobox a = None ->
  arg_shape a = None ->
  let resolved :=
    get_collection E (arg_endpoint a) (arg_collection_id a) tt in
  let o := __init__ E a tt in
  head (calls o) =
    Some (if String.prefix "http" (arg_endpoint a)
          then CallClientOpen (arg_endpoint a)
          else CallClientFromFile (arg_endpoint a)) /\
  calls o = calls resolved /\
  forallb catalog_call (calls o) = true /\
  match result resolved with
  | Returned _ => result o = Raised (ValueError missing_shape_message)
  | Raised e => result o = Raised e
  end.
Proof.
  destruct a as [ep cid g sh ? ? ? ? ? ? ? ? ? ? ?]; cbn.
  intros -> ->. unfold __init__, get_collection, get_geobox.
  destruct (String.prefix "http" ep); run_method; done.
Qed.

(** No public operation writes an attribute of the session. *)
Lemma run_op_final (op : Op) (self : Session) :
  final (run_op E op self) = self.
Proof.
  destruct op; cbn.
  - by_buckets self; unfold load; run_method; reflexivity.
  - reflexivity.
  - reflexivity.
  - reflexivity.
Qed.

Lemma run_ops_final (ops : list Op) (self : Session) :
  run_ops E ops self = self.
Proof.
  induction ops as [|op ops IH]; cbn; [done|].
  by rewrite run_op_final.
Qed.
End ClientFacts.

(** C7.  With the catalog service of the specification: for an endpoint
    that cannot be opened the resolver signals [CatalogUnavailable], and for
    an endpoint that opens on a root in which the collection identifier is
    absent it signals [CollectionNotFound]. *)
Theorem get_collection_failures {Collection Item GeoBox S : Type}
    (E : @Externals (gmap string Collection) Collection Item GeoBox)
    (world : gmap string (gmap string Collection))
    (endpoint collection_id : string) (s : S) :
  serves E world ->
  (world !! endpoint = None ->
   result (get_collection E endpoint collection_id s)
   = Raised CatalogUnavailable) /\
  (forall root : gmap string Collection,
     world !! endpoint = Some root ->
     root !! collection_id = None ->
     result (get_collection E endpoint collection_id s)
     = Raised CollectionNotFound).
Proof.
  intros (Hopen & Hfile & Hget). unfold get_collection.
  split.
  - intros Hnone.
    destruct (String.prefix "http" endpoint);
      unfold mbind, M_bind, bind, extern; cbn;
      rewrite ?Hopen, ?Hfile; unfold catalog_open; by rewrite Hnone.
  - intros root Hroot Hnone.
    destruct (String.prefix "http" endpoint);
      unfold mbind, M_bind, bind, extern; cbn;
      rewrite ?Hopen, ?Hfile; unfold catalog_open; rewrite Hroot; cbn;
      rewrite Hget; unfold catalog_get_collection; by rewrite Hnone.
Qed.

(** ** The properties on concrete sessions *)
Section OnSessions.
Import Examples.

(** C1, as stated, fails: the raster and the vector buckets are not empty,
    the raster loader raises, and the vector loader is not invoked. *)
Lemma load_invokes_loaders_counterexample :
  let E := env (Raised (LoadError "raster")) (Returned (cube "soil"))
               (Returned (cube "ph")) in
  let self := session (MkCollectionFilter [1] [2] []) in
  nonempty_buckets self = [Raster; Vector] /\
  invoked (calls (load E self)) = [Raster] /\
  result (load E self) = Raised (LoadError "raster").
Proof. repeat split. Qed.

Lemma load_invokes_loaders_in_order_witness :
  let E := env (Returned (cube "ndvi")) (Returned (cube "soil"))
               (Returned (cube "ph")) in
  let self := session (MkCollectionFilter [1] [2] []) in
  all_return E (calls (load E self)) = true /\
  invoked (calls (load E self)) = [Raster; Vector] /\
  exists items,
    last (calls (load E self)) = Some (CallMerge items) /\
    length items = 2.
Proof.
  intros E self. split; [reflexivity|].
  destruct (load_invokes_loaders_in_order E self) as (_ & _ & _ & Hall).
  apply Hall. reflexivity.
Defined.

Lemma load_propagates_loader_failure_witness :
  let E := env (Returned (cube "ndvi")) (Raised (LoadError "vector"))
               (Returned (cube "ph")) in
  let self := session (MkCollectionFilter [1] [2] [3]) in
  vector_call ∈ calls (load E self) /\
  result (load E self) = Raised (LoadError "vector") /\
  last (calls (load E self)) = Some vector_call /\
  merge_called (calls (load E self)) = false /\
  NoDup (invoked (calls (load E self))) /\
  final (load E self) = self.
Proof.
  intros E self.
  assert (vector_call ∈ calls (load E self)) as Hin
    by (apply list_elem_of_further, list_elem_of_here).
  split; [exact Hin|].
  apply (load_propagates_loader_failure E self vector_call
           (LoadError "vector") Hin).
  reflexivity.
Defined.

Lemma load_collects_standalone_results_witness :
  let E := env (Returned (cube "ndvi")) (Returned (cube "soil"))
               (Returned (cube "ph")) in
  let self := session (MkCollectionFilter [1] [2] []) in
  (calls (load_vector E self) = [vector_call] /\
   answer E vector_call = Some (result (load_vector E self))) /\
  Forall2 (fun m d => result (standalone E m self) = Returned d)
          [Raster; Vector] [cube "ndvi"; cube "soil"].
Proof.
  intros E self. split.
  - apply (proj1 (load_collects_standalone_results E self) vector_call Vector).
    + apply list_elem_of_further, list_elem_of_here.
    + reflexivity.
  - apply (proj2 (load_collects_standalone_results E self)
             [cube "ndvi"; cube "soil"]).
    do 2 apply list_elem_of_further. apply list_elem_of_here.
Defined.

Lemma load_empty_buckets_witness :
  let E := env (Returned (cube "ndvi")) (Returned (cube "soil"))
               (Returned (cube "ph")) in
  let self := session (MkCollectionFilter [] [] []) in
  result (load E self) = Returned empty_dataset /\
  calls (load E self) = [CallMerge []] /\
  final (load E self) = self.
Proof.
  intros E self.
  apply (load_empty_buckets E self); [intros items|..]; reflexivity.
Defined.

(** C2, as stated, fails: the raster and the vector loaders both return a
    data variable named [ndvi], the point loader raises, and [load] fails
    with the error of the point loader. *)
Lemma load_rejects_shared_variable_counterexample :
  let E := env (Returned (cube "ndvi")) (Returned (cube "ndvi"))
               (Raised (LoadError "point")) in
  let self := session (MkCollectionFilter [1] [2] [3]) in
  calls (load E self) = [raster_call; vector_call; point_call] /\
  answer E raster_call = Some (Returned (cube "ndvi")) /\
  answer E vector_call = Some (Returned (cube "ndvi")) /\
  result (load E self) = Raised (LoadError "point").
Proof. repeat split. Qed.

Lemma load_rejects_shared_variable_witness :
  let E := env (Returned (cube "ndvi")) (Returned (cube "ndvi"))
               (Returned (cube "ph")) in
  let self := session (MkCollectionFilter [1] [2] [3]) in
  all_return E (calls (load E self)) = true /\
  "ndvi" ∈ dom (data_vars (cube "ndvi")) /\
  result (load E self) = Raised VariableConflict.
Proof.
  intros E self.
  assert ("ndvi" ∈ dom (data_vars (cube "ndvi"))) as Hname
    by (apply elem_of_dom; eexists; reflexivity).
  split; [reflexivity|]. split; [exact Hname|].
  apply (load_rejects_shared_variable E self raster_call vector_call
           (cube "ndvi") (cube "ndvi") "ndvi").
  - intros items. reflexivity.
  - reflexivity.
  - apply list_elem_of_here.
  - apply list_elem_of_further, list_elem_of_here.
  - discriminate.
  - reflexivity.
  - reflexivity.
  - exact Hname.
  - exact Hname.
Defined.

(** C3, as stated, fails: the catalog is called, twice, before the
    construction fails; and when the endpoint cannot be opened, the failure
    is the catalog's. *)
Lemma init_without_geobox_and_shape_counterexample :
  let E := env (Returned (cube "ndvi")) (Returned (cube "soil"))
               (Returned (cube "ph")) in
  (calls (__init__ E (default_args "http://stac.example" "farm") tt)
   = [CallClientOpen "http://stac.example";
      CallGetCollection {[ "farm" := 7 ]} "farm"] /\
   result (__init__ E (default_args "http://stac.example" "farm") tt)
   = Raised (ValueError missing_shape_message)) /\
  (calls (__init__ E (default_args "catalog.json" "farm") tt)
   = [CallClientFromFile "catalog.json"] /\
   result (__init__ E (default_args "catalog.json" "farm") tt)
   = Raised CatalogUnavailable).
Proof. repeat split. Qed.

Lemma init_without_geobox_and_shape_witness :
  let E := env (Returned (cube "ndvi")) (Returned (cube "soil"))
               (Returned (cube "ph")) in
  let o := __init__ E (default_args "http://stac.example" "farm") tt in
  head (calls o) = Some (CallClientOpen "http://stac.example") /\
  forallb catalog_call (calls o) = true /\
  result o = Raised (ValueError missing_shape_message).
Proof.
  intros E o.
  destruct (init_without_geobox_and_shape E
              (default_args "http://stac.example" "farm")
              eq_refl eq_refl) as (Hhead & _ & Hcalls & Hres).
  split; [exact Hhead | split; [exact Hcalls | exact Hres]].
Defined.

Lemma get_collection_failures_witness :
  let E := env (Returned (cube "ndvi")) (Returned (cube "soil"))
               (Returned (cube "ph")) in
  result (get_collection E "http://nowhere.example" "farm" tt)
  = Raised CatalogUnavailable /\
  result (get_collection E "http://stac.example" "orchard" tt)
  = Raised CollectionNotFound.
Proof.
  intros E.
  assert (serves E world) as Hserves by (repeat split).
  split.
  - apply (get_collection_failures E world "http://nowhere.example" "farm"
             tt Hserves).
    reflexivity.
  - apply (proj2 (get_collection_failures E world "http://stac.example"
                    "orchard" tt Hserves) {[ "farm" := 7 ]});
      reflexivity.
Defined.
End OnSessions.

(** * Properties of the legacy loader *)

Section LegacyFacts.
Context {StacClient Search ItemIter GeoBox Importer Response : Type}.
Context {Dataset DataArray Scalar : Type} `{!Legacy.Xarray Dataset DataArray Scalar}.
Abbreviation LegacyExt :=
  (@Legacy.Externals StacClient Search ItemIter GeoBox Importer Response
                     Dataset DataArray Scalar).
Abbreviation Loader := (@Legacy.Mccn StacClient Scalar).
Abbreviation LegacyCall :=
  (@Legacy.Call StacClient Search ItemIter GeoBox Importer Response
                Dataset Scalar).
Variable E : LegacyExt.

(** The answers of the collaborators and of the xarray operations, on which
    the proofs go by cases. *)
Ltac legacy_answer r :=
  lazymatch r with
  | Legacy.client_search _ _ _ => idtac
  | Legacy.search_items _ _ => idtac
  | Legacy.stac_load _ _ _ _ _ _ _ => idtac
  | Legacy.stac_load_vector _ _ _ => idtac
  | Legacy.get_wcs_importer _ _ => idtac
  | Legacy.get_data _ _ _ _ => idtac
  | Legacy.open_rasterio _ _ => idtac
  | Legacy.combine_by_coords _ _ => idtac
  | Legacy.ds_getattr _ _ => idtac
  | Legacy.da_min _ => idtac
  | Legacy.da_max _ => idtac
  | Legacy.da_rename _ _ => idtac
  | Legacy.da_interp _ _ _ _ _ => idtac
  | Legacy.da_setitem _ _ _ => idtac
  | Legacy.da_expand_dims _ _ _ => idtac
  | Legacy.da_squeeze _ _ _ => idtac
  | Legacy.da_to_dataset _ _ => idtac
  end.

Ltac is_test b :=
  lazymatch type of b with
  | bool => idtac
  end.

Ltac run_legacy :=
  unfold mbind, M_bind, mret, M_ret, bind, ret, get, put, extern, raise,
    Legacy.lift in *;
  repeat (cbn;
    match goal with
    | H : ?r = _ |- context [?r] => legacy_answer r; rewrite H
    | H : ?b = _ |- context [if ?b then _ else _] => is_test b; rewrite H
    | |- context [if ?b then _ else _] => is_test b; destruct b eqn:?
    | |- context [match ?r with Raised _ => _ | Returned _ => _ end] =>
        legacy_answer r; destruct r eqn:?
    end);
  cbn.

(** The catalog query writes no attribute. *)
Lemma query_final (col_id : string) (self : Loader) :
  final (Legacy._query E col_id self) = self.
Proof. unfold Legacy._query. run_legacy; reflexivity. Qed.

(** What [_load_stac] does to the loader object: it leaves it as it was
    when it raises, and when it returns it has overwritten [bbox], and
    nothing else, with a list of four values. *)
Lemma load_stac_final (col_id : string) (bands : option (list string))
    (groupby : string) (crs : option string) (geobox : option GeoBox)
    (lazy : bool) (self : Loader) :
  match result (Legacy._load_stac E col_id bands groupby crs geobox lazy self)
  with
  | Raised _ =>
      final (Legacy._load_stac E col_id bands groupby crs geobox lazy self)
      = self
  | Returned _ =>
      exists min_lon min_lat max_lon max_lat : Scalar,
        final (Legacy._load_stac E col_id bands groupby crs geobox lazy self)
        = {| Legacy.stac_client := Legacy.stac_client self;
             Legacy.lat_count := Legacy.lat_count self;
             Legacy.lon_count := Legacy.lon_count self;
             Legacy.bbox := Some [min_lon; min_lat; max_lon; max_lat] |}
  end.
Proof.
  unfold Legacy._load_stac, Legacy._query. run_legacy; try reflexivity.
  all: by do 4 eexists.
Qed.
(** An entry whose name is not [dem] raises at once: no call is made
    and no attribute is written. *)
Lemma stack_source_other (xx : Dataset) (name layer : string) (self : Loader) :
  name <> "dem" ->
  Legacy.stack_source E xx (name, layer) self
  = MkOutcome (Raised (NotImplementedError
                         (Legacy.not_implemented_message name)))
              self [].
Proof.
  intros Hname. unfold Legacy.stack_source.
  by rewrite bool_decide_eq_true_2.
Qed.

Lemma stack_source_final (xx : Dataset) (entry : string * string)
    (self : Loader) :
  final (Legacy.stack_source E xx entry self) = self.
Proof.
  destruct entry as [name layer].
  unfold Legacy.stack_source, Legacy.load_public.
  case_bool_decide; run_legacy; reflexivity.
Qed.

Lemma stack_sources_cons (xx : Dataset) (entry : string * string)
    (entries : list (string * string)) :
  Legacy.stack_sources E xx (entry :: entries)
  = bind (Legacy.stack_source E xx entry)
         (fun xx' => Legacy.stack_sources E xx' entries).
Proof. reflexivity. Qed.

Lemma stack_sources_final (entries : list (string * string)) :
  forall (xx : Dataset) (self : Loader),
    final (Legacy.stack_sources E xx entries self) = self.
Proof.
  induction entries as [|entry entries IH]; intros xx self; [reflexivity|].
  rewrite stack_sources_cons, bind_outcome.
  pose proof (stack_source_final xx entry self) as Hfinal.
  destruct (Legacy.stack_source E xx entry self) as [[e|xx'] self' cs];
    cbn [result final calls] in *; subst self'; [reflexivity|].
  apply IH.
Qed.

(** The loop over a concatenation: the rounds of the first part, then, if
    they return, the rounds of the second. *)
Lemma stack_sources_app (pre rest : list (string * string)) :
  forall (xx : Dataset) (self : Loader),
    Legacy.stack_sources E xx (pre ++ rest) self
    = bind (Legacy.stack_sources E xx pre)
           (fun xx' => Legacy.stack_sources E xx' rest) self.
Proof.
  induction pre as [|entry pre IH]; intros xx self.
  - exact (eq_sym (bind_ret_l xx
                      (fun xx' => Legacy.stack_sources E xx' rest) self)).
  - rewrite <- app_comm_cons, !stack_sources_cons, bind_assoc.
    apply bind_ext. intros xx' self'. apply IH.
Qed.

Lemma both_false (P Q : Prop) `{!Decision P, !Decision Q} :
  ~ (P /\ Q) -> bool_decide P && bool_decide Q = false.
Proof.
  intros Hnot. rewrite <- bool_decide_and. by apply bool_decide_eq_false_2.
Qed.

(** A dataset with neither pair of spatial axes makes [_load_stac] raise
    its [AttributeError], and [bbox] is not written. *)
Lemma load_stac_other_axes (col_id : string) (bands : option (list string))
    (groupby : string) (crs : option string) (geobox : option GeoBox)
    (lazy : bool) (self : Loader) (items : ItemIter) (xx : Dataset) :
  result (Legacy._query E col_id self) = Returned items ->
  Legacy.stac_load E items bands groupby
    (if lazy then Some [("x", 2048%Z); ("y", 2048%Z)] else None)
    crs geobox = Returned xx ->
  ~ ("x" ∈ Legacy.xindexes xx /\ "y" ∈ Legacy.xindexes xx) ->
  ~ ("longitude" ∈ Legacy.xindexes xx /\ "latitude" ∈ Legacy.xindexes xx) ->
  result (Legacy._load_stac E col_id bands groupby crs geobox lazy self)
  = Raised (AttributeError Legacy.spatial_axes_message) /\
  final (Legacy._load_stac E col_id bands groupby crs geobox lazy self)
  = self.
Proof.
  intros Hq Hload Hxy%(both_false _ _) Hll%(both_false _ _). revert Hq.
  unfold Legacy._load_stac, Legacy._query.
  destruct lazy; run_legacy.
  all: intros Hq; try discriminate Hq; injection Hq as ->.
  all: match goal with
       | H : Legacy.stac_load _ _ _ _ _ _ _ = _ |- _ =>
           rewrite Hload in H; try discriminate H; injection H as <-
       end.
  all: try congruence.
  all: by split.
Qed.

(** C8.  Whenever the dataset [stac_load] returns has neither the pair of
    indexes [x] and [y] nor the pair [longitude] and [latitude], the load
    fails with the [AttributeError] of [_load_stac] (the specification's
    UnsupportedAxisLayout), in [_load_stac] and so in [load], whatever the
    source mapping and the mask. *)
Theorem load_rejects_other_axes (col_id : string)
    (bands : option (list string)) (groupby : string) (crs : option string)
    (geobox : option GeoBox) (lazy : bool)
    (source : option (list (string * string))) (mask : bool)
    (self : Loader) (items : ItemIter) (xx : Dataset) :
  result (Legacy._query E col_id self) = Returned items ->
  Legacy.stac_load E items bands groupby
    (if lazy then Some [("x", 2048%Z); ("y", 2048%Z)] else None)
    crs geobox = Returned xx ->
  ~ ("x" ∈ Legacy.xindexes xx /\ "y" ∈ Legacy.xindexes xx) ->
  ~ ("longitude" ∈ Legacy.xindexes xx /\ "latitude" ∈ Legacy.xindexes xx) ->
  result (Legacy._load_stac E col_id bands groupby crs geobox lazy self)
  = Raised (AttributeError Legacy.spatial_axes_message) /\
  result (Legacy.load E col_id bands groupby crs geobox lazy source mask self)
  = Raised (AttributeError Legacy.spatial_axes_message).
Proof.
  intros Hq Hload Hxy Hll.
  destruct (load_stac_other_axes col_id bands groupby crs geobox lazy self
              items xx Hq Hload Hxy Hll) as [Hres _].
  split; [exact Hres|].
  unfold Legacy.load, mbind, M_bind.
  by rewrite bind_outcome, Hres.
Qed.
(** C10.  A call of the legacy [load] whose source mapping holds a key
    other than [dem] never returns a dataset; and whenever the steps before
    that entry go through (the same call, with the mapping cut before the
    entry, returns), processing the entry raises [NotImplementedError] for
    that key, with no further call and no further write. *)
Theorem load_rejects_other_sources (col_id : string)
    (bands : option (list string)) (groupby : string) (crs : option string)
    (geobox : option GeoBox) (lazy mask : bool) (self : Loader)
    (pre post : list (string * string)) (name layer : string) :
  name <> "dem" ->
  let o := Legacy.load E col_id bands groupby crs geobox lazy
             (Some (pre ++ (name, layer) :: post)) mask self in
  let before := Legacy.load E col_id bands groupby crs geobox lazy
                  (Some pre) mask self in
  (exists e, result o = Raised e) /\
  (forall xx : Dataset,
     result before = Returned xx ->
     result o = Raised (NotImplementedError
                          (Legacy.not_implemented_message name)) /\
     calls o = calls before /\
     final o = final before).
Proof.
  intros Hname o before. subst o before.
  unfold Legacy.load, mbind, M_bind.
  set (L := Legacy._load_stac E col_id bands groupby crs geobox lazy).
  match goal with
  | |- context [bind ?m (fun _ : unit => _)] => set (K := m)
  end.
  clearbody L K.
  rewrite !(bind_outcome L).
  destruct (L self) as [[e|xx] s1 cs1]; cbn [result final calls].
  { split; [by eexists | discriminate]. }
  rewrite !(bind_outcome K).
  destruct (K s1) as [[e|[]] s2 cs2]; cbn [result final calls].
  { split; [by eexists | discriminate]. }
  rewrite stack_sources_app, bind_outcome.
  destruct (Legacy.stack_sources E xx pre s2) as [[e|xx'] s3 cs3];
    cbn [result final calls].
  { split; [by eexists | discriminate]. }
  rewrite stack_sources_cons, bind_outcome.
  rewrite (stack_source_other xx' name layer s3 Hname).
  cbn [result final calls]. rewrite !app_nil_r.
  split; [by eexists | done].
Qed.
(** The legacy [load] writes what its call of [_load_stac] writes, and
    nothing else. *)
Lemma legacy_load_final (col_id : string) (bands : option (list string))
    (groupby : string) (crs : option string) (geobox : option GeoBox)
    (lazy : bool) (source : option (list (string * string))) (mask : bool)
    (self : Loader) :
  final (Legacy.load E col_id bands groupby crs geobox lazy source mask self)
  = final (Legacy._load_stac E col_id bands groupby crs geobox lazy self).
Proof.
  unfold Legacy.load, mbind, M_bind.
  set (L := Legacy._load_stac E col_id bands groupby crs geobox lazy).
  match goal with
  | |- context [bind ?m (fun _ : unit => _)] => set (K := m)
  end.
  assert (forall s, final (K s) = s) as HK.
  { intros s. unfold K, Legacy._query. destruct mask; run_legacy; reflexivity. }
  clearbody L K.
  rewrite (bind_outcome L).
  destruct (L self) as [[e|xx] s1 cs1]; cbn [result final calls];
    [reflexivity|].
  rewrite (bind_outcome K). specialize (HK s1).
  destruct (K s1) as [[e|[]] s2 cs2]; cbn [result final calls] in *;
    subst s2; [reflexivity|].
  destruct source as [entries|]; [apply stack_sources_final | reflexivity].
Qed.
Lemma both_true (P Q : Prop) `{!Decision P, !Decision Q} :
  bool_decide P && bool_decide Q = true -> P /\ Q.
Proof.
  intros [HP HQ]%andb_prop.
  split; by eapply bool_decide_eq_true_1.
Qed.

Lemma not_both (P Q : Prop) `{!Decision P, !Decision Q} :
  bool_decide P && bool_decide Q = false -> ~ (P /\ Q).
Proof.
  intros Hfalse [HP HQ].
  by rewrite (bool_decide_eq_true_2 P HP), (bool_decide_eq_true_2 Q HQ)
    in Hfalse.
Qed.

(** The bounding box of a dataset, as [_load_stac] computes it (mccn.py,
    lines 50-63): the spatial axes are [x] and [y] when the dataset has
    both indexes, and [longitude] and [latitude] when it does not have both
    but has these two; the box lists the least value of the first axis, the
    least of the second, the greatest of the first and the greatest of the
    second. *)
Definition spatial_extent (xx : Dataset) (box : list Scalar) : Prop :=
  exists (lon lat : string) (xx_lon xx_lat : DataArray)
         (min_lon max_lon min_lat max_lat : Scalar),
    ((lon = "x" /\ lat = "y" /\
      "x" ∈ Legacy.xindexes xx /\ "y" ∈ Legacy.xindexes xx) \/
     (lon = "longitude" /\ lat = "latitude" /\
      ~ ("x" ∈ Legacy.xindexes xx /\ "y" ∈ Legacy.xindexes xx) /\
      "longitude" ∈ Legacy.xindexes xx /\
      "latitude" ∈ Legacy.xindexes xx)) /\
    Legacy.ds_getattr xx lon = Returned xx_lon /\
    Legacy.da_min xx_lon = Returned min_lon /\
    Legacy.da_max xx_lon = Returned max_lon /\
    Legacy.ds_getattr xx lat = Returned xx_lat /\
    Legacy.da_min xx_lat = Returned min_lat /\
    Legacy.da_max xx_lat = Returned max_lat /\
    box = [min_lon; min_lat; max_lon; max_lat].

(** What [_load_stac] writes: nothing when it raises; when it returns, the
    dataset it returns is the one [stac_load] returned for the items of the
    catalog query, and [bbox], and nothing else, has been overwritten with
    the bounding box of that dataset. *)
Lemma load_stac_extent (col_id : string) (bands : option (list string))
    (groupby : string) (crs : option string) (geobox : option GeoBox)
    (lazy : bool) (self : Loader) :
  match result (Legacy._load_stac E col_id bands groupby crs geobox lazy self)
  with
  | Raised _ =>
      final (Legacy._load_stac E col_id bands groupby crs geobox lazy self)
      = self
  | Returned xx =>
      (exists items,
         result (Legacy._query E col_id self) = Returned items /\
         Legacy.stac_load E items bands groupby
           (if lazy then Some [("x", 2048%Z); ("y", 2048%Z)] else None)
           crs geobox = Returned xx) /\
      exists box,
        spatial_extent xx box /\
        final (Legacy._load_stac E col_id bands groupby crs geobox lazy self)
        = {| Legacy.stac_client := Legacy.stac_client self;
             Legacy.lat_count := Legacy.lat_count self;
             Legacy.lon_count := Legacy.lon_count self;
             Legacy.bbox := Some box |}
  end.
Proof.
  unfold Legacy._load_stac, Legacy._query.
  destruct lazy; run_legacy; try reflexivity.
  all: split; [eexists; split; [reflexivity | eassumption]|].
  all: eexists; split; [|reflexivity].
  all: unfold spatial_extent; do 8 eexists.
  all: split;
    [ match goal with
      | Hxy : _ && _ = true, Hno : _ && _ = false |- _ =>
          right; pose proof (both_true _ _ Hxy) as [? ?];
          pose proof (not_both _ _ Hno); by repeat split
      | Hxy : _ && _ = true |- _ =>
          left; pose proof (both_true _ _ Hxy) as [? ?]; by repeat split
      end
    | repeat split; eassumption ].
Qed.
End LegacyFacts.

(** C4 (as amended).  No public operation of the session [MCCN] writes an
    attribute: after any sequence of calls of [load], [load_raster],
    [load_vector] and [load_point], whether they returned or raised, the
    session, with its geobox, its collection filter and every configuration
    field, is the session the sequence started from.  The legacy [Mccn.load]
    does write its object: when its call of [_load_stac] returns, the
    attribute [bbox] has been overwritten with the bounding box of the
    dataset [stac_load] returned (the least and greatest values of its
    axes [x] and [y], or [longitude] and [latitude], in the order least of
    the first axis, least of the second, greatest of the first, greatest of
    the second) and the other attributes are as they were; when it raises,
    the object is as it was. *)
Theorem public_operations_and_session_state
    {StacClient Collection Item GeoBox : Type}
    (E : @Client.Externals StacClient Collection Item GeoBox)
    (ops : list Op) (self : @MCCN Collection Item GeoBox)
    {Client' Search ItemIter GeoBox' Importer Response : Type}
    {Dataset' DataArray Scalar : Type}
    `{!Legacy.Xarray Dataset' DataArray Scalar}
    (E' : @Legacy.Externals Client' Search ItemIter GeoBox' Importer Response
                            Dataset' DataArray Scalar)
    (col_id : string) (bands : option (list string)) (groupby : string)
    (crs : option string) (geobox : option GeoBox') (lazy : bool)
    (source : option (list (string * string))) (mask : bool)
    (legacy : @Legacy.Mccn Client' Scalar) :
  run_ops E ops self = self /\
  let o := Legacy.load E' col_id bands groupby crs geobox lazy source mask
             legacy in
  match result (Legacy._load_stac E' col_id bands groupby crs geobox lazy
                                  legacy) with
  | Raised _ => final o = legacy
  | Returned xx =>
      (exists items,
         result (Legacy._query E' col_id legacy) = Returned items /\
         Legacy.stac_load E' items bands groupby
           (if lazy then Some [("x", 2048%Z); ("y", 2048%Z)] else None)
           crs geobox = Returned xx) /\
      exists box : list Scalar,
        spatial_extent xx box /\
        final o
        = {| Legacy.stac_client := Legacy.stac_client legacy;
             Legacy.lat_count := Legacy.lat_count legacy;
             Legacy.lon_count := Legacy.lon_count legacy;
             Legacy.bbox := Some box |}
  end.
Proof.
  split; [apply run_ops_final|].
  cbn zeta. rewrite legacy_load_final.
  apply load_stac_extent.
Qed.

(** ** The properties on concrete loader objects *)
Section OnLoaderObjects.
Import LegacyExamples.

(** C4, as stated, fails: on a fresh legacy loader, whose [bbox] is [None],
    a call of the public operation [load] that returns leaves [bbox] set. *)
Lemma public_operations_counterexample :
  let o := Legacy.load (env ["x"; "y"; "time"]) "farm" None "id" None None
             false None false fresh in
  Legacy.bbox fresh = None /\
  result o = Returned ["x"; "y"; "time"] /\
  Legacy.bbox (final o) = Some [0; 0; 1; 1]%Z.
Proof. repeat split. Qed.

Lemma load_rejects_other_axes_witness :
  let E := env ["time"; "band"] in
  result (Legacy._load_stac E "farm" None "id" None None false fresh)
  = Raised (AttributeError Legacy.spatial_axes_message) /\
  result (Legacy.load E "farm" None "id" None None false None false fresh)
  = Raised (AttributeError Legacy.spatial_axes_message).
Proof.
  intros E.
  apply (load_rejects_other_axes E "farm" None "id" None None false None
           false fresh tt ["time"; "band"]).
  - reflexivity.
  - reflexivity.
  - intros [Hx _]. exact (bool_decide_pack _ Hx).
  - intros [Hlon _]. exact (bool_decide_pack _ Hlon).
Defined.

Lemma load_rejects_other_sources_witness :
  let E := env ["longitude"; "latitude"; "time"; "spatial_ref"] in
  let source := [("dem", "elevation_layer"); ("soil", "clay")] in
  (exists xx,
     result (Legacy.load E "farm" None "id" None None false
               (Some [("dem", "elevation_layer")]) false fresh)
     = Returned xx) /\
  result (Legacy.load E "farm" None "id" None None false (Some source)
            false fresh)
  = Raised (NotImplementedError
              "Datacube stacking for soil has not beenimplemented.").
Proof.
  intros E source. split; [by eexists|].
  assert ("soil" <> "dem") as Hname by discriminate.
  destruct (load_rejects_other_sources E "farm" None "id" None None false
              false fresh [("dem", "elevation_layer")] [] "soil" "clay"
              Hname) as [_ Hraise].
  exact (proj1 (Hraise _ eq_refl)).
Defined.
End OnLoaderObjects.

(** * Further properties of the session object *)

Section MoreClientFacts.
Context {StacClient Collection Item GeoBox : Type}.
Variable E : @Externals StacClient Collection Item GeoBox.

(** X1.  The resolver opens an endpoint with [Client.open] exactly when the
    endpoint starts with [http], and with [Client.from_file] otherwise,
    never with both.  If the opening raises, the resolver raises the same
    error and asks for no collection; if it returns a client, the resolver
    asks that client once for the collection and hands back its answer, a
    collection or an error, unchanged.  It writes no attribute. *)
Theorem get_collection_dispatch {S : Type}
    (endpoint collection_id : string) (s : S) :
  let o := get_collection E endpoint collection_id s in
  let opening :=
    if String.prefix "http" endpoint
    then (CallClientOpen endpoint, Client_open E endpoint)
    else (CallClientFromFile endpoint, Client_from_file E endpoint) in
  final o = s /\
  match opening.2 with
  | Raised e => result o = Raised e /\ calls o = [opening.1]
  | Returned res =>
      result o = Client_get_collection E res collection_id /\
      calls o = [opening.1; CallGetCollection res collection_id]
  end.
Proof.
  unfold get_collection.
  destruct (String.prefix "http" endpoint); run_method; by repeat split.
Qed.

(** X2.  A construction given a geobox never calls the geobox builder,
    whatever shape is given with it; the session it returns holds the given
    geobox, and holds the given shape as it was given. *)
Theorem init_with_geobox (a : InitArgs) (g : GeoBox) :
  arg_geobox a = Some g ->
  let o := __init__ E a tt in
  Forall (fun c => match c with CallGeoBoxBuilder _ _ => False | _ => True end)
         (calls o) /\
  (forall self : @MCCN Collection Item GeoBox,
     result o = Returned self ->
     geobox self = g /\ shape self = arg_shape a).
Proof.
  destruct a as [ep cid g' sh ? ? ? ? ? ? ? ? ? ? ?]; cbn.
  intros ->. unfold __init__, get_collection, get_geobox.
  destruct (String.prefix "http" ep); run_method.
  all: split; [repeat constructor|].
  all: intros self [= <-]; by split.
Qed.

(** X3.  A construction given a shape and no geobox derives the geobox:
    once the resolver has returned the collection, the geobox builder is
    called on that collection and that shape.  If the builder raises, the
    construction raises the same error and the collection filter is never
    built; if it returns, the session holds the geobox the builder
    returned. *)
Theorem init_derives_geobox (a : InitArgs) (sh : Shape) (col : Collection) :
  arg_geobox a = None ->
  arg_shape a = Some sh ->
  result (get_collection E (arg_endpoint a) (arg_collection_id a) tt)
  = Returned col ->
  let o := __init__ E a tt in
  CallGeoBoxBuilder col sh ∈ calls o /\
  match GeoBoxBuilder_from_collection E col sh with
  | Raised e =>
      result o = Raised e /\
      last (calls o) = Some (CallGeoBoxBuilder col sh)
  | Returned g =>
      last (calls o) = Some (CallCollectionFilter col g (arg_asset_key a)) /\
      forall self : @MCCN Collection Item GeoBox,
        result o = Returned self -> geobox self = g
  end.
Proof.
  destruct a as [ep cid g' sh' ? ? ? ? ? ? ? ? ? ? ?]; cbn.
  intros -> -> Hcol. revert Hcol.
  unfold __init__, get_collection, get_geobox.
  destruct (String.prefix "http" ep); run_method.
  all: intros Hcol; try discriminate Hcol; injection Hcol as <-.
  all: try congruence.
  all: split; [set_solver|].
  all: repeat split; try congruence.
  all: intros self Hself; try discriminate Hself; injection Hself as <-.
  all: cbn; congruence.
Qed.

(** X4.  A construction that returns a session has called no loader and no
    merge.  The session holds the endpoint, the identifier and every
    configuration argument as given, the collection the resolver returned,
    and the collection filter built, as the last call of the construction,
    from the session's own collection, geobox and asset key. *)
Theorem init_returns_session (a : InitArgs)
    (self : @MCCN Collection Item GeoBox) :
  result (__init__ E a tt) = Returned self ->
  let o := __init__ E a tt in
  invoked (calls o) = [] /\
  merge_called (calls o) = false /\
  result (get_collection E (arg_endpoint a) (arg_collection_id a) tt)
  = Returned (collection self) /\
  CollectionFilter_new E (collection self) (geobox self) (asset_key self)
  = Returned (collection_filter self) /\
  last (calls o)
  = Some (CallCollectionFilter (collection self) (geobox self)
                               (asset_key self)) /\
  endpoint self = arg_endpoint a /\
  collection_id self = arg_collection_id a /\
  shape self = arg_shape a /\
  asset_key self = arg_asset_key a /\
  (x_col self, y_col self, t_col self)
  = (arg_x_col a, arg_y_col a, arg_t_col a) /\
  bands self = arg_bands a /\
  (groupby self, vector_fields self, alias_renaming self)
  = (arg_groupby a, arg_vector_fields a, arg_alias_renaming a) /\
  (point_fields self, merge_method self, interp_method self)
  = (arg_point_fields a, arg_merge_method a, arg_interp_method a).
Proof.
  destruct a as [ep cid g sh ? ? ? ? ? ? ? ? ? ? ?]; cbn.
  unfold __init__, get_collection, get_geobox.
  destruct (String.prefix "http" ep), g as [g|], sh as [sh|]; run_method.
  all: intros Hself; try discriminate Hself; injection Hself as <-; cbn.
  all: by repeat split.
Qed.

(** X5.  A construction never calls a loader or the merge, also when it
    fails; and when it fails, its error is the error of the first step that
    failed: the resolver's, else that of [get_geobox] (the builder's, or
    the [ValueError] for the missing shape), else that of the constructor
    of the collection filter. *)
Theorem init_failure (a : InitArgs) (e : Exn) :
  let o := __init__ E a tt in
  invoked (calls o) = [] /\
  merge_called (calls o) = false /\
  (result o = Raised e ->
   result (get_collection E (arg_endpoint a) (arg_collection_id a) tt)
   = Raised e \/
   exists col,
     result (get_collection E (arg_endpoint a) (arg_collection_id a) tt)
     = Returned col /\
     (result (get_geobox E col (arg_geobox a) (arg_shape a) tt) = Raised e \/
      exists g,
        result (get_geobox E col (arg_geobox a) (arg_shape a) tt)
        = Returned g /\
        CollectionFilter_new E col g (arg_asset_key a) = Raised e)).
Proof.
  destruct a as [ep cid g sh ? ? ? ? ? ? ? ? ? ? ?]; cbn.
  unfold __init__, get_collection, get_geobox.
  destruct (String.prefix "http" ep), g as [g|], sh as [sh|]; run_method.
  all: repeat split; try done.
  all: intros [= <-]; eauto 10.
Qed.
(** Case analysis on the three buckets of a session. *)
Ltac on_buckets self :=
  let r := fresh "r" in
  let v := fresh "v" in
  let p := fresh "p" in
  destruct self as [? ? ? ? ? ? [r v p] ? ? ? ? ? ? ? ? ? ?];
  destruct r, v, p.

(** X6.  When every loader [load] invokes returns, [load] ends with one
    call of the merge on the structures the standalone operations return
    for the non-empty buckets, in order, and the outcome of [load] is the
    answer of the merge to that list, a structure or an error, unchanged. *)
Theorem load_returns_merge_answer (self : @MCCN Collection Item GeoBox) :
  all_return E (calls (load E self)) = true ->
  exists items : list Dataset,
    Forall2 (fun m d => result (standalone E m self) = Returned d)
            (nonempty_buckets self) items /\
    result (load E self) = xr_merge E items /\
    last (calls (load E self)) = Some (CallMerge items) /\
    length (calls (load E self)) = S (length items).
Proof.
  on_buckets self;
    unfold load, nonempty_buckets, all_return, returns, standalone,
      load_raster, load_vector, load_point;
    run_method.
  all: intros Hret; try discriminate Hret.
  all: eexists; split;
    [repeat (constructor; [cbn; eassumption|]); constructor|].
  all: repeat split; congruence.
Qed.

(** X7.  A standalone operation makes exactly one call: its own loader, on
    its own bucket of the collection filter, also when that bucket is
    empty, with the session's geobox and the configuration fields of its
    modality, each in its place.  It hands back the loader's answer
    unchanged and writes no attribute; [load], on the same session, does
    not invoke the loader of an empty bucket. *)
Theorem standalone_calls_loader (m : Modality)
    (self : @MCCN Collection Item GeoBox) :
  calls (standalone E m self)
  = [match m with
     | Raster =>
         CallRaster (raster (collection_filter self)) (geobox self)
                    (bands self) (x_col self) (y_col self) (t_col self)
     | Vector =>
         CallVector (vector (collection_filter self)) (geobox self)
                    (groupby self) (vector_fields self)
                    (x_col self) (y_col self) (asset_key self)
                    (alias_renaming self)
     | Point =>
         CallPoint (point (collection_filter self)) (geobox self)
                   (asset_key self) (point_fields self)
                   (x_col self) (y_col self) (t_col self)
                   (merge_method self) (interp_method self)
     end] /\
  (exists c,
     calls (standalone E m self) = [c] /\
     modality_of c = Some m /\
     answer E c = Some (result (standalone E m self))) /\
  final (standalone E m self) = self /\
  (bucket (collection_filter self) m = [] ->
   m ∉ invoked (calls (load E self))).
Proof.
  split; [by destruct m|]. split; [|split].
  - destruct m; eexists; by repeat split.
  - by destruct m.
  - revert m. on_buckets self; unfold load; run_method.
    all: intros [] Hb; try discriminate Hb; by apply (bool_decide_unpack _).
Qed.
End MoreClientFacts.

(** * Further properties of the legacy loader *)

(** A second small world for the legacy loader, in which the extent
    depends on the axis: a data array is the name of its axis, and the axes
    [x], [y], [longitude] and [latitude] range over different intervals. *)
Module AxisExamples.
Import Legacy.

Definition axis_min (axis : string) : Z :=
  if bool_decide (axis = "x") then 10
  else if bool_decide (axis = "y") then 30
  else if bool_decide (axis = "longitude") then 140
  else if bool_decide (axis = "latitude") then (-40)
  else 0.

Definition axis_max (axis : string) : Z :=
  if bool_decide (axis = "x") then 20
  else if bool_decide (axis = "y") then 50
  else if bool_decide (axis = "longitude") then 150
  else if bool_decide (axis = "latitude") then (-30)
  else 0.

Definition axes_xarray : Xarray (list string) string Z :=
  {| xindexes := fun xx => xx;
     ds_getattr := fun xx name =>
       if bool_decide (name ∈ xx) then Returned name
       else Raised (AttributeError name);
     da_min := fun a => Returned (axis_min a);
     da_max := fun a => Returned (axis_max a);
     da_values := fun a => [axis_min a; axis_max a];
     da_rename := fun yy _ => Returned yy;
     da_interp := fun yy _ _ _ _ => Returned yy;
     da_setitem := fun yy _ _ => Returned yy;
     da_expand_dims := fun yy _ _ => Returned yy;
     da_squeeze := fun yy _ _ => Returned yy;
     da_to_dataset := fun _ name => Returned [name] |}.
End AxisExamples.

(** The answers of the collaborators and of the xarray operations of the
    legacy loader, and the run of a method body by cases on them. *)
Ltac loader_answer r :=
  lazymatch r with
  | Legacy.Client_open _ _ => idtac
  | Legacy.client_search _ _ _ => idtac
  | Legacy.search_items _ _ => idtac
  | Legacy.stac_load _ _ _ _ _ _ _ => idtac
  | Legacy.stac_load_vector _ _ _ => idtac
  | Legacy.get_wcs_importer _ _ => idtac
  | Legacy.get_data _ _ _ _ => idtac
  | Legacy.open_rasterio _ _ => idtac
  | Legacy.combine_by_coords _ _ => idtac
  | Legacy.ds_getattr _ _ => idtac
  | Legacy.da_min _ => idtac
  | Legacy.da_max _ => idtac
  | Legacy.da_rename _ _ => idtac
  | Legacy.da_interp _ _ _ _ _ => idtac
  | Legacy.da_setitem _ _ _ => idtac
  | Legacy.da_expand_dims _ _ _ => idtac
  | Legacy.da_squeeze _ _ _ => idtac
  | Legacy.da_to_dataset _ _ => idtac
  end.

Ltac boolean_test b :=
  lazymatch type of b with
  | bool => idtac
  end.

Ltac run_loader :=
  unfold mbind, M_bind, mret, M_ret, bind, ret, get, put, extern, raise,
    Legacy.lift in *;
  repeat (cbn;
    match goal with
    | H : ?r = _ |- context [?r] => loader_answer r; rewrite H
    | H : ?b = _ |- context [if ?b then _ else _] =>
        boolean_test b; rewrite H
    | |- context [if ?b then _ else _] => boolean_test b; destruct b eqn:?
    | |- context [match ?r with Raised _ => _ | Returned _ => _ end] =>
        loader_answer r; destruct r eqn:?
    end);
  cbn.

Section MoreLegacyFacts.
Context {StacClient Search ItemIter GeoBox Importer Response : Type}.
Context {Dataset DataArray Scalar : Type}
        {HX : Legacy.Xarray Dataset DataArray Scalar}.
Variable E : @Legacy.Externals StacClient Search ItemIter GeoBox Importer
                               Response Dataset DataArray Scalar.

(** X8.  The calls of [_load_stac] to the catalog and to the loader (the
    printed line and the creation of the worker pool, which the embedding
    leaves out, aside) are, in this order and once each: the search, with
    the object's own client and for the one collection [col_id]; if the
    search returns, the listing of the items of that very search; and if
    the listing returns, [stac_load] on the items listed, with the bands,
    the grouping, the reference system and the geobox as they were passed
    and the chunk sizes 2048 by 2048 exactly when [lazy] is set.  The
    search is always made, a step that raises is the last call, and no
    other collaborator (vector loader, WCS importer, raster reader,
    [combine_by_coords]) is called. *)
Theorem load_stac_calls (col_id : string) (bands : option (list string))
    (groupby : string) (crs : option string) (geobox : option GeoBox)
    (lazy : bool) (self : @Legacy.Mccn StacClient Scalar) :
  let o := Legacy._load_stac E col_id bands groupby crs geobox lazy self in
  let client := Legacy.stac_client self in
  let chunks := if lazy then Some [("x", 2048%Z); ("y", 2048%Z)] else None in
  match Legacy.client_search E client [col_id] with
  | Raised e =>
      calls o = [Legacy.CallSearch client [col_id]] /\ result o = Raised e
  | Returned query =>
      match Legacy.search_items E query with
      | Raised e =>
          calls o = [Legacy.CallSearch client [col_id];
                     Legacy.CallItems query] /\
          result o = Raised e
      | Returned items =>
          calls o = [Legacy.CallSearch client [col_id];
                     Legacy.CallItems query;
                     Legacy.CallStacLoad items bands groupby chunks crs
                                         geobox] /\
          forall e,
            Legacy.stac_load E items bands groupby chunks crs geobox
            = Raised e ->
            result o = Raised e
      end
  end.
Proof.
  unfold Legacy._load_stac, Legacy._query.
  destruct lazy; run_loader.
  all: split; [reflexivity|]; try reflexivity.
  all: intros err; try discriminate; congruence.
Qed.

(** X9.  When the dataset [stac_load] returns has the indexes [x] and [y],
    and the extremes of both are computed, [_load_stac] returns that
    dataset unchanged and sets [bbox] to the list of the least [x], the
    least [y], the greatest [x] and the greatest [y], in this order; the
    indexes [longitude] and [latitude], when the dataset has them too, are
    not used. *)
Theorem load_stac_bbox_xy (col_id : string) (bands : option (list string))
    (groupby : string) (crs : option string) (geobox : option GeoBox)
    (lazy : bool) (self : @Legacy.Mccn StacClient Scalar)
    (items : ItemIter) (xx : Dataset) (xx_x xx_y : DataArray)
    (min_lon max_lon min_lat max_lat : Scalar) :
  result (Legacy._query E col_id self) = Returned items ->
  Legacy.stac_load E items bands groupby
    (if lazy then Some [("x", 2048%Z); ("y", 2048%Z)] else None)
    crs geobox = Returned xx ->
  "x" ∈ Legacy.xindexes xx ->
  "y" ∈ Legacy.xindexes xx ->
  Legacy.ds_getattr xx "x" = Returned xx_x ->
  Legacy.da_min xx_x = Returned min_lon ->
  Legacy.da_max xx_x = Returned max_lon ->
  Legacy.ds_getattr xx "y" = Returned xx_y ->
  Legacy.da_min xx_y = Returned min_lat ->
  Legacy.da_max xx_y = Returned max_lat ->
  let o := Legacy._load_stac E col_id bands groupby crs geobox lazy self in
  result o = Returned xx /\
  final o = {| Legacy.stac_client := Legacy.stac_client self;
               Legacy.lat_count := Legacy.lat_count self;
               Legacy.lon_count := Legacy.lon_count self;
               Legacy.bbox := Some [min_lon; min_lat; max_lon; max_lat] |}.
Proof.
  intros Hq Hload Hx%(bool_decide_eq_true_2 _) Hy%(bool_decide_eq_true_2 _)
    Hgx Hminx Hmaxx Hgy Hminy Hmaxy.
  revert Hq.
  unfold Legacy._load_stac, Legacy._query.
  destruct lazy; run_loader.
  all: intros Hq; try discriminate Hq; injection Hq as ->.
  all: match goal with
       | H : Legacy.stac_load _ _ _ _ _ _ _ = _ |- _ =>
           rewrite Hload in H; try discriminate H; injection H as <-
       end.
  all: try (rewrite Hx, Hy in *; discriminate).
  all: try congruence.
  all: split; congruence.
Qed.
(** X10.  When the dataset [stac_load] returns lacks one of the indexes
    [x] and [y] but has the indexes [longitude] and [latitude], and the
    extremes of both are computed, [_load_stac] returns that dataset
    unchanged and sets [bbox] to the list of the least longitude, the least
    latitude, the greatest longitude and the greatest latitude, in this
    order. *)
Theorem load_stac_bbox_lonlat (col_id : string)
    (bands : option (list string)) (groupby : string) (crs : option string)
    (geobox : option GeoBox) (lazy : bool)
    (self : @Legacy.Mccn StacClient Scalar)
    (items : ItemIter) (xx : Dataset) (xx_longitude xx_latitude : DataArray)
    (min_lon max_lon min_lat max_lat : Scalar) :
  result (Legacy._query E col_id self) = Returned items ->
  Legacy.stac_load E items bands groupby
    (if lazy then Some [("x", 2048%Z); ("y", 2048%Z)] else None)
    crs geobox = Returned xx ->
  ~ ("x" ∈ Legacy.xindexes xx /\ "y" ∈ Legacy.xindexes xx) ->
  "longitude" ∈ Legacy.xindexes xx ->
  "latitude" ∈ Legacy.xindexes xx ->
  Legacy.ds_getattr xx "longitude" = Returned xx_longitude ->
  Legacy.da_min xx_longitude = Returned min_lon ->
  Legacy.da_max xx_longitude = Returned max_lon ->
  Legacy.ds_getattr xx "latitude" = Returned xx_latitude ->
  Legacy.da_min xx_latitude = Returned min_lat ->
  Legacy.da_max xx_latitude = Returned max_lat ->
  let o := Legacy._load_stac E col_id bands groupby crs geobox lazy self in
  result o = Returned xx /\
  final o = {| Legacy.stac_client := Legacy.stac_client self;
               Legacy.lat_count := Legacy.lat_count self;
               Legacy.lon_count := Legacy.lon_count self;
               Legacy.bbox := Some [min_lon; min_lat; max_lon; max_lat] |}.
Proof.
  intros Hq Hload Hxy%(both_false _ _)
    Hlon%(bool_decide_eq_true_2 _) Hlat%(bool_decide_eq_true_2 _)
    Hgx Hminx Hmaxx Hgy Hminy Hmaxy.
  revert Hq.
  unfold Legacy._load_stac, Legacy._query.
  destruct lazy; run_loader.
  all: intros Hq; try discriminate Hq; injection Hq as ->.
  all: match goal with
       | H : Legacy.stac_load _ _ _ _ _ _ _ = _ |- _ =>
           rewrite Hload in H; try discriminate H; injection H as <-
       end.
  all: try (rewrite Hlon, Hlat in *; discriminate).
  all: try congruence.
  all: split; congruence.
Qed.

(** X11.  The legacy [load] begins with the calls of [_load_stac].  If
    [_load_stac] raises, [load] is over: it raises the same error, makes no
    further call and leaves the object as it was.  If [_load_stac] returns,
    the [bbox] it has written stays written whatever happens next: also a
    [load] that then raises leaves the object with the new [bbox]. *)
Theorem load_after_load_stac (col_id : string)
    (bands : option (list string)) (groupby : string) (crs : option string)
    (geobox : option GeoBox) (lazy : bool)
    (source : option (list (string * string))) (mask : bool)
    (self : @Legacy.Mccn StacClient Scalar) :
  let first := Legacy._load_stac E col_id bands groupby crs geobox lazy self in
  let o := Legacy.load E col_id bands groupby crs geobox lazy source mask
             self in
  calls first `prefix_of` calls o /\
  match result first with
  | Raised e => o = first
  | Returned _ => final o = final first /\ is_Some (Legacy.bbox (final o))
  end.
Proof.
  intros first o.
  pose proof (legacy_load_final E col_id bands groupby crs geobox lazy source
                mask self) as Hfinal.
  pose proof (load_stac_final E col_id bands groupby crs geobox lazy self)
    as Hbbox.
  fold first in Hfinal, Hbbox. fold o in Hfinal.
  assert (o = bind (Legacy._load_stac E col_id bands groupby crs geobox lazy)
                   (fun xx =>
                      (if mask
                       then items ← Legacy._query E col_id;
                            vector_array ←
                              extern (Legacy.CallStacLoadVector items geobox)
                                     (Legacy.stac_load_vector E items geobox);
                            mret tt
                       else mret tt);;
                      match source with
                      | Some entries => Legacy.stack_sources E xx entries
                      | None => mret xx
                      end) self) as Ho by reflexivity.
  rewrite bind_outcome in Ho. fold first in Ho.
  destruct (result first) as [e|xx] eqn:Hres.
  - split; [by rewrite Ho|].
    rewrite Ho. destruct first as [r s1 cs1]. cbn in Hres. by subst r.
  - split; [rewrite Ho; cbn; by apply prefix_app_r|].
    split; [exact Hfinal|].
    rewrite Hfinal. destruct Hbbox as (a & b & c & d & ->). by eexists.
Qed.

(** X12.  Without a mask, and with no source mapping or an empty one, the
    legacy [load] is [_load_stac]: the same result, the same calls and the
    same object afterwards. *)
Theorem load_plain (col_id : string) (bands : option (list string))
    (groupby : string) (crs : option string) (geobox : option GeoBox)
    (lazy : bool) (source : option (list (string * string)))
    (self : @Legacy.Mccn StacClient Scalar) :
  source = None \/ source = Some [] ->
  Legacy.load E col_id bands groupby crs geobox lazy source false self
  = Legacy._load_stac E col_id bands groupby crs geobox lazy self.
Proof.
  intros Hsource. unfold Legacy.load, mbind, M_bind, mret, M_ret.
  generalize (Legacy._load_stac E col_id bands groupby crs geobox lazy).
  intros L. unfold bind, ret.
  destruct (L self) as [[e|xx] s1 cs1]; [reflexivity|].
  destruct Hsource as [-> | ->]; cbn; by rewrite app_nil_r.
Qed.
(** The body of the legacy [load] as three steps in sequence:
    [_load_stac], the mask, and the loop over the source mapping. *)
Lemma legacy_load_steps (col_id : string) (bands : option (list string))
    (groupby : string) (crs : option string) (geobox : option GeoBox)
    (lazy : bool) (source : option (list (string * string))) (mask : bool)
    (self : @Legacy.Mccn StacClient Scalar) :
  Legacy.load E col_id bands groupby crs geobox lazy source mask self
  = bind (Legacy._load_stac E col_id bands groupby crs geobox lazy)
      (fun xx =>
         bind (if mask
               then bind (Legacy._query E col_id)
                      (fun items =>
                         bind (extern (Legacy.CallStacLoadVector items geobox)
                                 (Legacy.stac_load_vector E items geobox))
                           (fun _ => ret tt))
               else ret tt)
           (fun _ =>
              match source with
              | Some entries => Legacy.stack_sources E xx entries
              | None => ret xx
              end))
      self.
Proof. reflexivity. Qed.

(** The calls of one round of the loop: the importer for [dem], its data
    for the object's [bbox] and the layer of the entry, the raster reader,
    and the combination of the running cube with one more dataset. *)
Lemma stack_source_calls (xx : Dataset) (name layer : string)
    (self : @Legacy.Mccn StacClient Scalar) :
  Forall (fun c =>
            match c with
            | Legacy.CallGetWcsImporter n => n = "dem" /\ name = "dem"
            | Legacy.CallGetData _ b l =>
                b = Legacy.bbox self /\ l = layer /\ name = "dem"
            | Legacy.CallOpenRasterio _ => name = "dem"
            | Legacy.CallCombineByCoords ds =>
                name = "dem" /\ exists yy, ds = [xx; yy]
            | _ => False
            end)
         (calls (Legacy.stack_source E xx (name, layer) self)).
Proof.
  unfold Legacy.stack_source, Legacy.load_public.
  destruct (decide (name = "dem")) as [->|Hname].
  - rewrite bool_decide_eq_false_2 by (intros Hne; by apply Hne).
    run_loader; repeat constructor; eauto.
  - rewrite bool_decide_eq_true_2 by done. constructor.
Qed.

Lemma stack_sources_calls (entries : list (string * string)) :
  forall (xx : Dataset) (self : @Legacy.Mccn StacClient Scalar),
    Forall (fun c =>
              match c with
              | Legacy.CallGetWcsImporter n => n = "dem"
              | Legacy.CallGetData _ b l =>
                  b = Legacy.bbox self /\ ("dem", l) ∈ entries
              | Legacy.CallOpenRasterio _ => True
              | Legacy.CallCombineByCoords ds => length ds = 2
              | _ => False
              end)
           (calls (Legacy.stack_sources E xx entries self)).
Proof.
  induction entries as [|[name layer] entries IH]; intros xx self.
  - constructor.
  - rewrite stack_sources_cons, bind_outcome.
    pose proof (stack_source_calls xx name layer self) as Hround.
    pose proof (stack_source_final E xx (name, layer) self) as Hfinal.
    assert (Forall (fun c =>
              match c with
              | Legacy.CallGetWcsImporter n => n = "dem"
              | Legacy.CallGetData _ b l =>
                  b = Legacy.bbox self /\ ("dem", l) ∈ (name, layer) :: entries
              | Legacy.CallOpenRasterio _ => True
              | Legacy.CallCombineByCoords ds => length ds = 2
              | _ => False
              end)
              (calls (Legacy.stack_source E xx (name, layer) self)))
      as Hround'.
    { eapply Forall_impl; [exact Hround|].
      intros [] Hc; try done.
      - by destruct Hc.
      - destruct Hc as (-> & -> & ->). split; [done | apply list_elem_of_here].
      - by destruct Hc as (_ & yy & ->). }
    destruct (Legacy.stack_source E xx (name, layer) self)
      as [[e|xx'] self' cs]; cbn [result final calls] in *; subst self';
      [exact Hround'|].
    apply Forall_app. split; [exact Hround'|].
    eapply Forall_impl; [apply IH|].
    intros [] Hc; try done.
    destruct Hc as [-> Hin]. split; [done | by apply list_elem_of_further].
Qed.

(** What a call made by the legacy [load] may be, given the arguments of
    [load], the object [self] it is called on and the [bbox] that
    [_load_stac] leaves: the search of the one collection with the object's
    client, the listing of its items, [stac_load] with the arguments passed
    on, the vector loader under a mask, and the calls of the rounds for an
    entry [dem]. *)
Definition legacy_call_allowed (col_id : string)
    (bands : option (list string)) (groupby : string) (crs : option string)
    (geobox : option GeoBox) (lazy : bool)
    (source : option (list (string * string))) (mask : bool)
    (self : @Legacy.Mccn StacClient Scalar) (written : option (list Scalar))
    (c : @Legacy.Call StacClient Search ItemIter GeoBox Importer Response
                      Dataset Scalar) : Prop :=
  match c with
  | Legacy.CallClientOpen _ => False
  | Legacy.CallSearch client collections =>
      client = Legacy.stac_client self /\ collections = [col_id]
  | Legacy.CallItems _ => True
  | Legacy.CallStacLoad _ b g chunks r gb =>
      b = bands /\ g = groupby /\ r = crs /\ gb = geobox /\
      chunks = (if lazy then Some [("x", 2048%Z); ("y", 2048%Z)] else None)
  | Legacy.CallStacLoadVector _ gb => mask = true /\ gb = geobox
  | Legacy.CallGetWcsImporter n =>
      n = "dem" /\ exists entries, source = Some entries
  | Legacy.CallGetData _ b layer =>
      b = written /\ is_Some b /\
      exists entries, source = Some entries /\ ("dem", layer) ∈ entries
  | Legacy.CallOpenRasterio _ => exists entries, source = Some entries
  | Legacy.CallCombineByCoords ds =>
      length ds = 2 /\ exists entries, source = Some entries
  end.

Lemma load_stac_calls_allowed (col_id : string)
    (bands : option (list string)) (groupby : string) (crs : option string)
    (geobox : option GeoBox) (lazy : bool)
    (source : option (list (string * string))) (mask : bool)
    (self : @Legacy.Mccn StacClient Scalar) (written : option (list Scalar)) :
  Forall (legacy_call_allowed col_id bands groupby crs geobox lazy source mask
            self written)
         (calls (Legacy._load_stac E col_id bands groupby crs geobox lazy
                   self)).
Proof.
  unfold Legacy._load_stac, Legacy._query.
  destruct lazy; run_loader; by repeat constructor.
Qed.

Lemma mask_step_calls_allowed (col_id : string)
    (bands : option (list string)) (groupby : string) (crs : option string)
    (geobox : option GeoBox) (lazy : bool)
    (source : option (list (string * string))) (mask : bool)
    (self s1 : @Legacy.Mccn StacClient Scalar)
    (written : option (list Scalar)) :
  Legacy.stac_client s1 = Legacy.stac_client self ->
  let step :=
    (if mask
     then bind (Legacy._query E col_id)
            (fun items =>
               bind (extern (Legacy.CallStacLoadVector items geobox)
                       (Legacy.stac_load_vector E items geobox))
                 (fun _ => ret tt))
     else ret tt) s1 in
  final step = s1 /\
  Forall (legacy_call_allowed col_id bands groupby crs geobox lazy source mask
            self written)
         (calls step).
Proof.
  intros Hclient step. subst step. unfold Legacy._query.
  destruct mask; run_loader; split; try reflexivity.
  all: repeat constructor; by rewrite ?Hclient.
Qed.

Lemma legacy_load_calls (col_id : string) (bands : option (list string))
    (groupby : string) (crs : option string) (geobox : option GeoBox)
    (lazy : bool) (source : option (list (string * string))) (mask : bool)
    (self : @Legacy.Mccn StacClient Scalar) :
  Forall (legacy_call_allowed col_id bands groupby crs geobox lazy source mask
            self
            (Legacy.bbox
               (final (Legacy._load_stac E col_id bands groupby crs geobox
                         lazy self))))
         (calls (Legacy.load E col_id bands groupby crs geobox lazy source
                   mask self)).
Proof.
  pose proof (load_stac_final E col_id bands groupby crs geobox lazy self)
    as Hbbox.
  pose proof (fun written =>
                load_stac_calls_allowed col_id bands groupby crs geobox lazy
                  source mask self written) as Hfirst.
  rewrite legacy_load_steps, bind_outcome.
  revert Hbbox Hfirst.
  destruct (Legacy._load_stac E col_id bands groupby crs geobox lazy self)
    as [[e|xx] s1 cs1]; cbn [result final calls]; intros Hbbox Hfirst.
  { apply Hfirst. }
  destruct Hbbox as (a & b & c & d & ->). cbn [Legacy.bbox].
  apply Forall_app. split; [apply Hfirst|].
  rewrite bind_outcome.
  pose proof (mask_step_calls_allowed col_id bands groupby crs geobox lazy
                source mask self
                {| Legacy.stac_client := Legacy.stac_client self;
                   Legacy.lat_count := Legacy.lat_count self;
                   Legacy.lon_count := Legacy.lon_count self;
                   Legacy.bbox := Some [a; b; c; d] |}
                (Some [a; b; c; d]) eq_refl) as [Hfinal Hstep].
  revert Hfinal Hstep.
  match goal with
  | |- final ?step = _ -> _ => destruct step as [[e|[]] s2 cs2]
  end; cbn [result final calls]; intros -> Hstep; [exact Hstep|].
  apply Forall_app. split; [exact Hstep|].
  destruct source as [entries|]; [|constructor].
  eapply Forall_impl; [apply stack_sources_calls|].
  intros [] Hc; cbn; try done; eauto.
  destruct Hc as [-> Hin]. cbn. eauto.
Qed.

(** X14.  The bounding box the legacy [load] hands to the WCS importer is
    never the one the object held before the call: every request for data
    carries the [bbox] that the [_load_stac] of this very call has just
    written, which is a list of values and not [None], and asks for the
    layer of an entry [dem] of the source mapping. *)
Theorem load_wcs_bbox (col_id : string) (bands : option (list string))
    (groupby : string) (crs : option string) (geobox : option GeoBox)
    (lazy : bool) (source : option (list (string * string))) (mask : bool)
    (self : @Legacy.Mccn StacClient Scalar) :
  let first := Legacy._load_stac E col_id bands groupby crs geobox lazy self in
  let o := Legacy.load E col_id bands groupby crs geobox lazy source mask
             self in
  Forall (fun c =>
            match c with
            | Legacy.CallGetData _ b layer =>
                b = Legacy.bbox (final first) /\
                is_Some b /\
                exists entries,
                  source = Some entries /\ ("dem", layer) ∈ entries
            | _ => True
            end)
         (calls o).
Proof.
  cbn zeta. eapply Forall_impl; [apply legacy_load_calls|].
  by intros [].
Qed.

(** X15.  The legacy [load] never opens a catalog client: it searches with
    the client the object already holds, and only for the collection
    [col_id].  It calls the vector loader only when the mask is set, with
    the geobox it was given, and calls the WCS importer, the raster reader
    and [combine_by_coords] only when a source mapping is given; the
    importer is only ever asked for [dem], and [combine_by_coords] always
    gets two datasets. *)
Theorem load_call_discipline (col_id : string)
    (bands : option (list string)) (groupby : string) (crs : option string)
    (geobox : option GeoBox) (lazy : bool)
    (source : option (list (string * string))) (mask : bool)
    (self : @Legacy.Mccn StacClient Scalar) :
  Forall (fun c =>
            match c with
            | Legacy.CallClientOpen _ => False
            | Legacy.CallSearch client collections =>
                client = Legacy.stac_client self /\ collections = [col_id]
            | Legacy.CallStacLoadVector _ gb => mask = true /\ gb = geobox
            | Legacy.CallGetWcsImporter n => n = "dem" /\ source <> None
            | Legacy.CallOpenRasterio _ => source <> None
            | Legacy.CallCombineByCoords ds => length ds = 2 /\ source <> None
            | _ => True
            end)
         (calls (Legacy.load E col_id bands groupby crs geobox lazy source
                   mask self)).
Proof.
  eapply Forall_impl; [apply legacy_load_calls|].
  intros [] Hc; cbn in Hc; try done.
  - destruct Hc as [-> [entries ->]]. by split.
  - by destruct Hc as [entries ->].
  - destruct Hc as [Hlen [entries ->]]. by split.
Qed.
(** The round of an entry whose name is not [dem] ends the loop: the rest
    of the mapping plays no part. *)
Lemma stack_sources_rejected (xx : Dataset) (name layer : string)
    (post : list (string * string)) (self : @Legacy.Mccn StacClient Scalar) :
  name <> "dem" ->
  Legacy.stack_sources E xx ((name, layer) :: post) self
  = MkOutcome (Raised (NotImplementedError
                         (Legacy.not_implemented_message name)))
              self [].
Proof.
  intros Hname. rewrite stack_sources_cons. unfold bind.
  by rewrite (stack_source_other E xx name layer self Hname).
Qed.

(** X16.  The entries that follow a key other than [dem] in the source
    mapping are never processed: the legacy [load] has the same result,
    makes the same calls and leaves the same object whatever follows that
    key. *)
Theorem load_stops_at_other_source (col_id : string)
    (bands : option (list string)) (groupby : string) (crs : option string)
    (geobox : option GeoBox) (lazy mask : bool)
    (self : @Legacy.Mccn StacClient Scalar)
    (pre post : list (string * string)) (name layer : string) :
  name <> "dem" ->
  Legacy.load E col_id bands groupby crs geobox lazy
    (Some (pre ++ (name, layer) :: post)) mask self
  = Legacy.load E col_id bands groupby crs geobox lazy
      (Some (pre ++ [(name, layer)])) mask self.
Proof.
  intros Hname. rewrite !legacy_load_steps.
  apply bind_ext. intros xx s1.
  apply bind_ext. intros _ s2.
  rewrite !stack_sources_app.
  apply bind_ext. intros xx' s3.
  by rewrite !stack_sources_rejected.
Qed.

End MoreLegacyFacts.

(** ** The further properties on concrete sessions and loader objects *)
Module MoreExamples.
Import Client.

(** The arguments of a constructor call on the example catalog, with the
    given geobox and shape and the defaults otherwise. *)
Definition args (g : option nat) (sh : option Shape) : @InitArgs nat :=
  {| arg_endpoint := "http://stac.example";
     arg_collection_id := "farm";
     arg_geobox := g;
     arg_shape := sh;
     arg_asset_key := ASSET_KEY;
     arg_x_col := "x";
     arg_y_col := "y";
     arg_t_col := "time";
     arg_bands := None;
     arg_groupby := "id";
     arg_vector_fields := FieldsNone;
     arg_alias_renaming := None;
     arg_point_fields := None;
     arg_merge_method := "mean";
     arg_interp_method := Some "nearest" |}.

(** The externals of the examples, with loaders that return. *)
Definition good_env : @Externals (gmap string nat) nat nat nat :=
  Examples.env (Returned (Examples.cube "ndvi"))
               (Returned (Examples.cube "soil"))
               (Returned (Examples.cube "ph")).

(** Externals whose constructor of the collection filter raises. *)
Definition no_filter_env : @Externals (gmap string nat) nat nat nat :=
  {| Client_open := Client_open good_env;
     Client_from_file := Client_from_file good_env;
     Client_get_collection := Client_get_collection good_env;
     GeoBoxBuilder_from_collection := GeoBoxBuilder_from_collection good_env;
     CollectionFilter_new := fun _ _ _ => Raised (LoadError "filter");
     stac_load_raster := stac_load_raster good_env;
     stac_load_vector := stac_load_vector good_env;
     stac_load_point := stac_load_point good_env;
     xr_merge := xr_merge good_env |}.
End MoreExamples.

Section OnMoreSessions.
Import Examples MoreExamples.

Lemma init_with_geobox_witness :
  let o := __init__ good_env (args (Some 5) (Some (ShapeInt 256))) tt in
  Forall (fun c => match c with CallGeoBoxBuilder _ _ => False | _ => True end)
         (calls o) /\
  (exists self, result o = Returned self) /\
  (forall self, result o = Returned self ->
                geobox self = 5 /\ shape self = Some (ShapeInt 256)).
Proof.
  intros o.
  destruct (init_with_geobox good_env (args (Some 5) (Some (ShapeInt 256))) 5
              eq_refl) as [Hcalls Hself].
  split; [exact Hcalls|]. split; [by eexists | exact Hself].
Defined.

Lemma init_derives_geobox_witness :
  let o := __init__ good_env (args None (Some (ShapeInt 256))) tt in
  CallGeoBoxBuilder 7 (ShapeInt 256) ∈ calls o /\
  last (calls o) = Some (CallCollectionFilter 7 0 ASSET_KEY) /\
  (forall self, result o = Returned self -> geobox self = 0).
Proof.
  intros o.
  exact (init_derives_geobox good_env (args None (Some (ShapeInt 256)))
           (ShapeInt 256) 7 eq_refl eq_refl eq_refl).
Defined.

Lemma init_returns_session_witness :
  let o := __init__ good_env (args None (Some (ShapeInt 256))) tt in
  exists self,
    result o = Returned self /\
    invoked (calls o) = [] /\
    collection self = 7 /\
    collection_filter self = MkCollectionFilter [1] [2] [] /\
    shape self = Some (ShapeInt 256).
Proof.
  intros o.
  destruct (result o) as [e|self] eqn:Hres; [discriminate Hres|].
  exists self.
  destruct (init_returns_session good_env (args None (Some (ShapeInt 256)))
              self Hres)
    as (Hinv & _ & Hcol & Hfilter & _ & _ & _ & Hshape & _).
  split; [reflexivity|]. split; [exact Hinv|].
  split; [by injection Hcol|].
  split; [|exact Hshape].
  injection Hres as <-. reflexivity.
Defined.

Lemma init_failure_witness :
  let o := __init__ no_filter_env (args (Some 5) None) tt in
  result o = Raised (LoadError "filter") /\
  invoked (calls o) = [] /\
  exists col g,
    result (get_collection no_filter_env "http://stac.example" "farm" tt)
    = Returned col /\
    result (get_geobox no_filter_env col (Some 5) None tt) = Returned g /\
    CollectionFilter_new no_filter_env col g ASSET_KEY
    = Raised (LoadError "filter").
Proof.
  intros o.
  destruct (init_failure no_filter_env (args (Some 5) None)
              (LoadError "filter")) as (Hinv & _ & Hfail).
  split; [reflexivity|]. split; [exact Hinv|].
  destruct (Hfail eq_refl) as [Hcat | (col & Hcol & [Hgeo | (g & Hg & Hf)])];
    [discriminate Hcat | | by exists col, g].
  cbn in Hcol. injection Hcol as <-. discriminate Hgeo.
Defined.

Lemma load_returns_merge_answer_witness :
  let self := session (MkCollectionFilter [1] [] [3]) in
  all_return good_env (calls (load good_env self)) = true /\
  exists items,
    Forall2 (fun m d => result (standalone good_env m self) = Returned d)
            [Raster; Point] items /\
    result (load good_env self) = merge items /\
    last (calls (load good_env self)) = Some (CallMerge items) /\
    length (calls (load good_env self)) = S (length items).
Proof.
  intros self. split; [reflexivity|].
  exact (load_returns_merge_answer good_env self eq_refl).
Defined.

Lemma standalone_calls_loader_witness :
  let self := session (MkCollectionFilter [1] [] [3]) in
  calls (load_vector good_env self)
  = [CallVector [] 0 "id" FieldsNone "x" "y" ASSET_KEY None] /\
  Vector ∉ invoked (calls (load good_env self)).
Proof.
  intros self. split; [reflexivity|].
  exact (proj2 (proj2 (proj2 (standalone_calls_loader good_env Vector self)))
           eq_refl).
Defined.
End OnMoreSessions.

Section OnMoreLoaderObjects.
Import LegacyExamples AxisExamples.

Lemma load_stac_bbox_xy_witness :
  let xx := ["x"; "y"; "longitude"; "latitude"] in
  let o := Legacy._load_stac (Xarray0 := axes_xarray) (env xx) "farm" None "id"
             None None false fresh in
  result o = Returned xx /\
  Legacy.bbox (final o) = Some [10; 30; 20; 50]%Z.
Proof.
  intros xx o.
  destruct (load_stac_bbox_xy (HX := axes_xarray) (env xx) "farm" None "id"
              None None false fresh tt xx "x" "y" 10%Z 20%Z 30%Z 50%Z)
    as [Hres Hfinal]; try reflexivity.
  - apply list_elem_of_here.
  - apply list_elem_of_further, list_elem_of_here.
  - split; [exact Hres|]. unfold o. by rewrite Hfinal.
Defined.

Lemma load_stac_bbox_lonlat_witness :
  let xx := ["longitude"; "latitude"; "x"] in
  let o := Legacy._load_stac (Xarray0 := axes_xarray) (env xx) "farm" None "id"
             None None true fresh in
  result o = Returned xx /\
  Legacy.bbox (final o) = Some [140; -40; 150; -30]%Z.
Proof.
  intros xx o.
  destruct (load_stac_bbox_lonlat (HX := axes_xarray) (env xx) "farm" None
              "id" None None true fresh tt xx "longitude" "latitude"
              140%Z 150%Z (-40)%Z (-30)%Z)
    as [Hres Hfinal]; try reflexivity.
  - intros [_ Hy]. exact (bool_decide_pack _ Hy).
  - apply list_elem_of_here.
  - apply list_elem_of_further, list_elem_of_here.
  - split; [exact Hres|]. unfold o. by rewrite Hfinal.
Defined.

Lemma load_plain_witness :
  let E := env ["x"; "y"; "time"] in
  Legacy.load E "farm" None "id" None None false (Some []) false fresh
  = Legacy._load_stac E "farm" None "id" None None false fresh /\
  Legacy.load E "farm" None "id" None None false None false fresh
  = Legacy._load_stac E "farm" None "id" None None false fresh.
Proof.
  intros E. split.
  - apply (load_plain E). by right.
  - apply (load_plain E). by left.
Defined.


Lemma load_stops_at_other_source_witness :
  let E := env ["longitude"; "latitude"; "time"; "spatial_ref"] in
  Legacy.load E "farm" None "id" None None false
    (Some [("dem", "elevation_layer"); ("soil", "clay"); ("dem2", "x")])
    false fresh
  = Legacy.load E "farm" None "id" None None false
      (Some [("dem", "elevation_layer"); ("soil", "clay")]) false fresh.
Proof.
  intros E.
  assert ("soil" <> "dem") as Hname by discriminate.
  exact (load_stops_at_other_source E "farm" None "id" None None false false
           fresh [("dem", "elevation_layer")] [("dem2", "x")] "soil" "clay"
           Hname).
Defined.

End OnMoreLoaderObjects.

Section MoreNonInterference.
Context {StacClient Search ItemIter GeoBox Importer Response : Type}.
Context {Dataset DataArray Scalar : Type}
        {HX : Legacy.Xarray Dataset DataArray Scalar}.
Variable E : @Legacy.Externals StacClient Search ItemIter GeoBox Importer
                               Response Dataset DataArray Scalar.

(** The object [self] with its [bbox] replaced. *)
Definition with_bbox (self : @Legacy.Mccn StacClient Scalar)
    (b : option (list Scalar)) : @Legacy.Mccn StacClient Scalar :=
  {| Legacy.stac_client := Legacy.stac_client self;
     Legacy.lat_count := Legacy.lat_count self;
     Legacy.lon_count := Legacy.lon_count self;
     Legacy.bbox := b |}.

(** [_load_stac] never reads the [bbox] of the object. *)
Lemma load_stac_forgets_bbox (col_id : string) (bands : option (list string))
    (groupby : string) (crs : option string) (geobox : option GeoBox)
    (lazy : bool) (self : @Legacy.Mccn StacClient Scalar)
    (b : option (list Scalar)) :
  let o := Legacy._load_stac E col_id bands groupby crs geobox lazy self in
  let o' := Legacy._load_stac E col_id bands groupby crs geobox lazy
              (with_bbox self b) in
  result o' = result o /\
  calls o' = calls o /\
  match result o with
  | Raised _ => final o = self /\ final o' = with_bbox self b
  | Returned _ => final o' = final o
  end.
Proof.
  unfold Legacy._load_stac, Legacy._query, with_bbox.
  destruct lazy; run_loader; by repeat split.
Qed.

(** X18.  The legacy [load] never reads the [bbox] the object held before
    the call: called on the same object with any other [bbox], it returns
    the same result and makes the same calls, with the same arguments; and
    when its [_load_stac] returns, it leaves the same object. *)
Theorem load_forgets_bbox (col_id : string) (bands : option (list string))
    (groupby : string) (crs : option string) (geobox : option GeoBox)
    (lazy : bool) (source : option (list (string * string))) (mask : bool)
    (self : @Legacy.Mccn StacClient Scalar) (b : option (list Scalar)) :
  let o := Legacy.load E col_id bands groupby crs geobox lazy source mask
             self in
  let o' := Legacy.load E col_id bands groupby crs geobox lazy source mask
              (with_bbox self b) in
  result o' = result o /\
  calls o' = calls o /\
  (forall xx,
     result (Legacy._load_stac E col_id bands groupby crs geobox lazy self)
     = Returned xx ->
     final o' = final o).
Proof.
  cbn zeta. rewrite !legacy_load_steps.
  match goal with
  | |- context [bind _ ?k (with_bbox self b)] => generalize k
  end.
  intros k. rewrite !bind_outcome.
  destruct (load_stac_forgets_bbox col_id bands groupby crs geobox lazy self b)
    as (Hres & Hcalls & Hfinal).
  rewrite Hres, Hcalls.
  destruct (result (Legacy._load_stac E col_id bands groupby crs geobox lazy
                      self)) as [e|xx]; cbn [result final calls].
  - repeat split. discriminate.
  - by rewrite Hfinal.
Qed.
End MoreNonInterference.

Section MoreSessionCalls.
Context {StacClient Collection Item GeoBox : Type}.
Variable E : @Externals StacClient Collection Item GeoBox.

(** X19.  Once a session is constructed, no public operation goes back to
    the catalog: every call made by [load], [load_raster], [load_vector]
    or [load_point] is a loader call or the merge, never a call of the
    catalog client, of the geobox builder or of the constructor of the
    collection filter; and the three standalone operations never call the
    merge. *)
Theorem public_operations_calls (op : Op)
    (self : @MCCN Collection Item GeoBox) :
  Forall (fun c =>
            match c with
            | CallRaster _ _ _ _ _ _ => True
            | CallVector _ _ _ _ _ _ _ _ => True
            | CallPoint _ _ _ _ _ _ _ _ _ => True
            | CallMerge _ => op = OpLoad
            | _ => False
            end)
         (calls (run_op E op self)).
Proof.
  destruct op; cbn [run_op].
  - destruct self as [? ? ? ? ? ? [r v p] ? ? ? ? ? ? ? ? ? ?].
    destruct r, v, p; unfold load; run_method; by repeat constructor.
  - by repeat constructor.
  - by repeat constructor.
  - by repeat constructor.
Qed.
End MoreSessionCalls.

(** A world of the legacy loader in which [stac_load] raises. *)
Module FailingLoadExamples.
Import Legacy.

Definition env
  : @Externals unit unit unit unit unit unit (list string) string Z :=
  {| Client_open := fun _ => Returned tt;
     client_search := fun _ _ => Returned tt;
     search_items := fun _ => Returned tt;
     stac_load := fun _ _ _ _ _ _ => Raised (LoadError "stac_load");
     stac_load_vector := fun _ _ => Returned [];
     get_wcs_importer := fun _ => Returned tt;
     get_data := fun _ _ _ => Returned tt;
     open_rasterio := fun _ => Returned "band";
     combine_by_coords := fun dss => Returned (concat dss) |}.
End FailingLoadExamples.

Lemma load_stac_calls_witness :
  let o := Legacy._load_stac FailingLoadExamples.env "farm" (Some ["red"])
             "id" None None true LegacyExamples.fresh in
  calls o = [Legacy.CallSearch tt ["farm"];
             Legacy.CallItems tt;
             Legacy.CallStacLoad tt (Some ["red"]) "id"
               (Some [("x", 2048%Z); ("y", 2048%Z)]) None None] /\
  result o = Raised (LoadError "stac_load").
Proof.
  intros o.
  destruct (load_stac_calls (HX := LegacyExamples.names_xarray)
              FailingLoadExamples.env "farm" (Some ["red"]) "id" None None
              true LegacyExamples.fresh) as [Hcalls Hraise].
  split; [exact Hcalls|].
  exact (Hraise (LoadError "stac_load") eq_refl).
Defined.
